(** * Real estate data utilities: a model of [utils.py]

    The module [utils.py] keeps seven parsed JSON documents in a
    [RealEstateDataManager] and answers queries over them by linear scans.
    The code is dynamically typed: every record is a [dict] produced by
    [json.load], every field is read with [dict.get], and an operation
    applied to a value of the wrong kind raises.  The model below keeps
    that: JSON values are one inductive type, the operations of Python
    that the queries use are functions on it, and a query returns either
    its value or the exception it raises.

    Conventions of the model:
    - strings are ASCII ([str.lower] folds [A-Z] only);
    - a number is an exact rational, or one of the three special floats
      that [json.load] accepts ([Infinity], [-Infinity], [NaN]); [int] and
      [float] are not told apart, and the rounding and overflow of float
      arithmetic are not modelled (comparisons of Python numbers are exact,
      so they are);
    - a [dict] is an association list in insertion order, read by its
      first binding of a key;
    - [==] is structural, without the identity shortcut of containers. *)

From Stdlib Require Import List String Ascii Bool Arith ZArith QArith Lia.
Import ListNotations.
Local Open Scope string_scope.
Local Open Scope list_scope.

(** ** Exceptions and results *)

Inductive exn : Type :=
| AttributeError
| TypeError
| ZeroDivisionError.

Inductive result (A : Type) : Type :=
| Ok (a : A)
| Raise (e : exn).

Arguments Ok {A} a.
Arguments Raise {A} e.

Definition bind {A B : Type} (r : result A) (k : A -> result B) : result B :=
  match r with
  | Ok a => k a
  | Raise e => Raise e
  end.

Declare Scope py_scope.
Delimit Scope py_scope with py.
Notation "x <- e ;; k" := (bind e (fun x => k))
  (at level 61, e at next level, right associativity) : py_scope.
Local Open Scope py_scope.

(** ** Values *)

#[local] Set Warnings "-register-all".

Inductive number : Type :=
| Fin (q : Q)
| PInf
| NInf
| NaN.

Inductive value : Type :=
| JNull
| JBool (b : bool)
| JNum (n : number)
| JStr (s : string)
| JArr (l : list value)
| JObj (d : list (string * value)).

Definition dict : Type := list (string * value).

Definition int (z : Z) : value := JNum (Fin (inject_Z z)).

(** ** Numbers *)

Definition num_lt (a b : number) : bool :=
  match a, b with
  | NaN, _ | _, NaN => false
  | Fin x, Fin y => negb (Qle_bool y x)
  | Fin _, PInf => true
  | Fin _, NInf => false
  | NInf, NInf => false
  | NInf, _ => true
  | PInf, _ => false
  end.

Definition num_eq (a b : number) : bool :=
  match a, b with
  | Fin x, Fin y => Qeq_bool x y
  | PInf, PInf => true
  | NInf, NInf => true
  | _, _ => false
  end.

Definition num_add (a b : number) : number :=
  match a, b with
  | NaN, _ | _, NaN => NaN
  | Fin x, Fin y => Fin (x + y)
  | PInf, NInf | NInf, PInf => NaN
  | PInf, _ | _, PInf => PInf
  | NInf, _ | _, NInf => NInf
  end.

Definition num_is_zero (a : number) : bool :=
  match a with
  | Fin x => Qeq_bool x 0
  | _ => false
  end.

(** [bool] is a subclass of [int]: [True] counts as 1 and [False] as 0 in
    comparisons and sums. *)
Definition as_num (v : value) : option number :=
  match v with
  | JBool b => Some (Fin (if b then 1 else 0))
  | JNum n => Some n
  | _ => None
  end.

(** ** Strings *)

Definition lower_ascii (c : ascii) : ascii :=
  let n := nat_of_ascii c in
  if (65 <=? n)%nat && (n <=? 90)%nat then ascii_of_nat (n + 32) else c.

Fixpoint lower (s : string) : string :=
  match s with
  | EmptyString => EmptyString
  | String c t => String (lower_ascii c) (lower t)
  end.

(** [needle in hay] on two strings *)
Fixpoint contains (needle hay : string) : bool :=
  if String.prefix needle hay then true
  else match hay with
       | EmptyString => false
       | String _ t => contains needle t
       end.

Fixpoint chars (s : string) : list value :=
  match s with
  | EmptyString => []
  | String c t => JStr (String c EmptyString) :: chars t
  end.

(** ** Dictionaries *)

Fixpoint dict_lookup (k : string) (d : dict) : option value :=
  match d with
  | [] => None
  | (k', v) :: r => if String.eqb k k' then Some v else dict_lookup k r
  end.

(** [d.get(k, default)] on a [dict] *)
Definition dict_get (d : dict) (k : string) (default : value) : value :=
  match dict_lookup k d with
  | Some v => v
  | None => default
  end.

(** [d[k] = v] *)
Fixpoint dict_set (d : dict) (k : string) (v : value) : dict :=
  match d with
  | [] => [(k, v)]
  | (k', w) :: r =>
      if String.eqb k k' then (k', v) :: r else (k', w) :: dict_set r k v
  end.

(** ** Python operations on values *)

(** Truth value of an object, as tested by [if], [and], [or], [not]. *)
Definition truthy (v : value) : bool :=
  match v with
  | JNull => false
  | JBool b => b
  | JNum n => negb (num_is_zero n)
  | JStr s => negb (String.eqb s "")
  | JArr l => match l with [] => false | _ => true end
  | JObj d => match d with [] => false | _ => true end
  end.

(** [a == b].  It never raises on JSON values. *)
Fixpoint py_eq (a b : value) : bool :=
  match a with
  | JNull => match b with JNull => true | _ => false end
  | JBool x =>
      match as_num b with
      | Some n => num_eq (Fin (if x then 1 else 0)) n
      | None => false
      end
  | JNum x =>
      match as_num b with
      | Some n => num_eq x n
      | None => false
      end
  | JStr s => match b with JStr t => String.eqb s t | _ => false end
  | JArr l =>
      match b with
      | JArr m =>
          (fix go (l m : list value) {struct l} : bool :=
             match l, m with
             | [], [] => true
             | x :: xs, y :: ys => py_eq x y && go xs ys
             | _, _ => false
             end) l m
      | _ => false
      end
  | JObj d =>
      match b with
      | JObj e =>
          Nat.eqb (List.length d) (List.length e) &&
          (fix go (d : dict) {struct d} : bool :=
             match d with
             | [] => true
             | (k, v) :: r =>
                 match dict_lookup k e with
                 | Some w => py_eq v w
                 | None => false
                 end && go r
             end) d
      | _ => false
      end
  end.

(** [a < b].  Numbers compare by value, strings and lists
    lexicographically; any other pair is a [TypeError]. *)
Fixpoint py_lt (a b : value) : result bool :=
  match a with
  | JNull => Raise TypeError
  | JBool x =>
      match as_num b with
      | Some n => Ok (num_lt (Fin (if x then 1 else 0)) n)
      | None => Raise TypeError
      end
  | JNum x =>
      match as_num b with
      | Some n => Ok (num_lt x n)
      | None => Raise TypeError
      end
  | JStr s => match b with JStr t => Ok (String.ltb s t) | _ => Raise TypeError end
  | JArr l =>
      match b with
      | JArr m =>
          (fix go (l m : list value) {struct l} : result bool :=
             match l, m with
             | [], [] => Ok false
             | [], _ :: _ => Ok true
             | _ :: _, [] => Ok false
             | x :: xs, y :: ys => if py_eq x y then go xs ys else py_lt x y
             end) l m
      | _ => Raise TypeError
      end
  | JObj _ => Raise TypeError
  end.

(** [a > b]: on the built-in types this is [b < a]. *)
Definition py_gt (a b : value) : result bool := py_lt b a.

(** [v.get(k, default)]: only a [dict] has the method. *)
Definition py_get (v : value) (k : string) (default : value) : result value :=
  match v with
  | JObj d => Ok (dict_get d k default)
  | _ => Raise AttributeError
  end.

(** [v.lower()]: only a [str] has the method. *)
Definition py_lower (v : value) : result string :=
  match v with
  | JStr s => Ok (lower s)
  | _ => Raise AttributeError
  end.

(** The items produced by [for x in v]: the elements of a list, the
    characters of a string, the keys of a dict. *)
Definition py_iter (v : value) : result (list value) :=
  match v with
  | JArr l => Ok l
  | JStr s => Ok (chars s)
  | JObj d => Ok (map (fun kv => JStr (fst kv)) d)
  | _ => Raise TypeError
  end.

(** [x in c] *)
Definition py_in (x c : value) : result bool :=
  match c with
  | JArr l => Ok (existsb (py_eq x) l)
  | JStr s =>
      match x with
      | JStr t => Ok (contains t s)
      | _ => Raise TypeError
      end
  | JObj d =>
      match x with
      | JStr k => Ok (match dict_lookup k d with Some _ => true | None => false end)
      | JArr _ | JObj _ => Raise TypeError
      | _ => Ok false
      end
  | _ => Raise TypeError
  end.

(** [len(v)] *)
Definition py_len (v : value) : result nat :=
  match v with
  | JArr l => Ok (List.length l)
  | JStr s => Ok (String.length s)
  | JObj d => Ok (List.length d)
  | _ => Raise TypeError
  end.

(** [a + b] on numbers, the only sums the queries form (they start from
    the integer 0). *)
Definition py_add (a b : value) : result value :=
  match as_num a, as_num b with
  | Some x, Some y => Ok (JNum (num_add x y))
  | _, _ => Raise TypeError
  end.

(** [a / n] for a count [n]. *)
Definition py_div (a : value) (n : nat) : result value :=
  match as_num a with
  | None => Raise TypeError
  | Some x =>
      match n with
      | O => Raise ZeroDivisionError
      | S _ =>
          Ok (JNum (match x with
                    | Fin q => Fin (q / inject_Z (Z.of_nat n))
                    | other => other
                    end))
      end
  end.

(** The two loop shapes of the module.  [find_first] is

      for x in items:
          if cond(x): return x
      return None

    and [select] is the comprehension [[x for x in items if cond(x)]] (or
    the loop that appends to a list).  [cond] may raise; the loop stops at
    the first element where it does. *)
Fixpoint find_first (cond : value -> result bool) (items : list value)
  : result value :=
  match items with
  | [] => Ok JNull
  | x :: rest =>
      b <- cond x ;;
      if b then Ok x else find_first cond rest
  end.

Fixpoint select (cond : value -> result bool) (items : list value)
  : result (list value) :=
  match items with
  | [] => Ok []
  | x :: rest =>
      b <- cond x ;;
      kept <- select cond rest ;;
      Ok (if b then x :: kept else kept)
  end.

(** ** [PropertyFilter]

    A dataclass: the annotations are not enforced, so a field holds any
    value ([match_clients_to_properties] fills them from a client record).
    [None] is [JNull]. *)
Module PropertyFilter.

Record t : Type := mk {
  min_price : value;
  max_price : value;
  min_bedrooms : value;
  max_bedrooms : value;
  min_bathrooms : value;
  max_bathrooms : value;
  areas : value;
  property_types : value;
  min_sqft : value;
  max_sqft : value;
  features : value
}.

(** [PropertyFilter()] *)
Definition default : t :=
  mk JNull JNull JNull JNull JNull JNull JNull JNull JNull JNull JNull.

End PropertyFilter.

(** ** [RealEstateDataManager]

    The seven documents, as [_load_all_data] leaves them.  Reading the
    files is outside the model; a document that failed to load is [{}]. *)
Record RealEstateDataManager : Type := {
  properties : dict;
  agents : dict;
  market : dict;
  clients : dict;
  amenities : dict;
  transactions : dict;
  areas : dict
}.

Section Queries.

Variable self : RealEstateDataManager.

(** *** Property operations *)

Definition get_all_properties : value :=
  dict_get (properties self) "active_listings" (JArr []).

Definition get_property_by_id (property_id : value) : result value :=
  props <- py_iter get_all_properties ;;
  find_first
    (fun prop => i <- py_get prop "id" JNull ;; Ok (py_eq i property_id))
    props.

(** [filters.bound and prop.get(field, 0) < filters.bound] *)
Definition below (prop : value) (field : string) (bound : value)
  : result bool :=
  if truthy bound
  then v <- py_get prop field (int 0) ;; py_lt v bound
  else Ok false.

(** [filters.bound and prop.get(field, float("inf")) > filters.bound] *)
Definition above (prop : value) (field : string) (bound : value)
  : result bool :=
  if truthy bound
  then v <- py_get prop field (JNum PInf) ;; py_gt v bound
  else Ok false.

(** [filters.allowed and prop.get(field) not in filters.allowed] *)
Definition outside (prop : value) (field : string) (allowed : value)
  : result bool :=
  if truthy allowed
  then v <- py_get prop field JNull ;;
       b <- py_in v allowed ;;
       Ok (negb b)
  else Ok false.

(** [any(required.lower() in feature.lower() for feature in prop_features)] *)
Fixpoint any_feature (required : value) (prop_features : list value)
  : result bool :=
  match prop_features with
  | [] => Ok false
  | feature :: rest =>
      r <- py_lower required ;;
      f <- py_lower feature ;;
      if contains r f then Ok true else any_feature required rest
  end.

(** The loop over [filters.features]; [true] when it falls through. *)
Fixpoint all_features (prop_features : value) (required : list value)
  : result bool :=
  match required with
  | [] => Ok true
  | required_feature :: rest =>
      fs <- py_iter prop_features ;;
      found <- any_feature required_feature fs ;;
      if found then all_features prop_features rest else Ok false
  end.

(** [if c: return False], followed by the rest of the function *)
Definition return_false_if (c : result bool) (rest : result bool)
  : result bool :=
  b <- c ;;
  if b then Ok false else rest.

Definition _matches_filter (prop : value) (filters : PropertyFilter.t)
  : result bool :=
  (* Price range *)
  return_false_if (below prop "price" (PropertyFilter.min_price filters)) (
  return_false_if (above prop "price" (PropertyFilter.max_price filters)) (
  (* Bedrooms *)
  return_false_if (below prop "bedrooms" (PropertyFilter.min_bedrooms filters)) (
  return_false_if (above prop "bedrooms" (PropertyFilter.max_bedrooms filters)) (
  (* Bathrooms *)
  return_false_if (below prop "bathrooms" (PropertyFilter.min_bathrooms filters)) (
  return_false_if (above prop "bathrooms" (PropertyFilter.max_bathrooms filters)) (
  (* Areas *)
  return_false_if (outside prop "area" (PropertyFilter.areas filters)) (
  (* Property types *)
  return_false_if
    (outside prop "property_type" (PropertyFilter.property_types filters)) (
  (* Square footage *)
  return_false_if (below prop "square_feet" (PropertyFilter.min_sqft filters)) (
  return_false_if (above prop "square_feet" (PropertyFilter.max_sqft filters)) (
  (* Features *)
  if truthy (PropertyFilter.features filters)
  then prop_features <- py_get prop "features" (JArr []) ;;
       required <- py_iter (PropertyFilter.features filters) ;;
       all_features prop_features required
  else Ok true)))))))))).

Definition filter_properties (filters : PropertyFilter.t)
  : result (list value) :=
  props <- py_iter get_all_properties ;;
  select (fun prop => _matches_filter prop filters) props.

(** *** Agent operations *)

Definition get_all_agents : value :=
  dict_get (agents self) "agents" (JArr []).

Definition get_agent_by_id (agent_id : value) : result value :=
  ags <- py_iter get_all_agents ;;
  find_first
    (fun agent => i <- py_get agent "id" JNull ;; Ok (py_eq i agent_id))
    ags.

(** *** Client operations *)

Definition get_all_clients : value :=
  dict_get (clients self) "clients" (JArr []).

Definition get_client_by_id (client_id : value) : result value :=
  cls <- py_iter get_all_clients ;;
  find_first
    (fun client => i <- py_get client "id" JNull ;; Ok (py_eq i client_id))
    cls.

Definition match_clients_to_properties (client_id : value)
  : result (list value) :=
  client <- get_client_by_id client_id ;;
  if negb (truthy client) then Ok [] else
  ty <- py_get client "type" JNull ;;
  if negb (py_eq ty (JStr "Buyer")) then Ok [] else
  preferences <- py_get client "preferences" (JObj []) ;;
  budget <- py_get preferences "budget_range" (JObj []) ;;
  lo <- py_get budget "min" JNull ;;
  hi <- py_get budget "max" JNull ;;
  desired <- py_get preferences "desired_areas" JNull ;;
  ptype <- py_get preferences "property_type" JNull ;;
  filter_properties
    (PropertyFilter.mk lo hi JNull JNull JNull JNull
       desired (if truthy ptype then JArr [ptype] else JNull)
       JNull JNull JNull).

(** *** Market operations *)

(** [d.get(key)] where the key is any object: a [list] or a [dict] is
    unhashable, and only a [str] can be among the keys of a document. *)
Definition py_get_key (d key : value) : result value :=
  match d with
  | JObj m =>
      match key with
      | JStr k => Ok (dict_get m k JNull)
      | JArr _ | JObj _ => Raise TypeError
      | _ => Ok JNull
      end
  | _ => Raise AttributeError
  end.

Definition get_area_market_data (area : value) : result value :=
  py_get_key (dict_get (market self) "area_performance" (JObj [])) area.

(** *** Amenities operations *)

(** The loop of [get_schools_by_area]: [all_schools.extend(...)] for each
    school type in turn. *)
Fixpoint extend_schools (schools_data : value) (school_types : list string)
  (all_schools : list value) : result (list value) :=
  match school_types with
  | [] => Ok all_schools
  | school_type :: rest =>
      schools <- py_get schools_data school_type (JArr []) ;;
      items <- py_iter schools ;;
      extend_schools schools_data rest (all_schools ++ items)
  end.

Definition get_schools_by_area (area : value) : result (list value) :=
  extend_schools
    (dict_get (amenities self) "schools" (JObj []))
    ["elementary_schools"; "middle_schools"; "high_schools"; "private_schools"]
    [].

Definition get_amenities_by_type (amenity_type : string) : value :=
  dict_get (amenities self) amenity_type (JObj []).

(** [[x for x in items if x.get("area", "").lower() == area.lower()]],
    the comprehension shared by parks, shops and sales. *)
Definition in_area (items area : value) : result (list value) :=
  xs <- py_iter items ;;
  select
    (fun x =>
       a <- py_get x "area" (JStr "") ;;
       la <- py_lower a ;;
       lb <- py_lower area ;;
       Ok (String.eqb la lb))
    xs.

(** The loop over [shopping.items()] *)
Fixpoint shops_in_area (items : dict) (area : value) (area_shopping : dict)
  : result dict :=
  match items with
  | [] => Ok area_shopping
  | (shop_type, shops) :: rest =>
      match shops with
      | JArr _ =>
          kept <- in_area shops area ;;
          shops_in_area rest area (dict_set area_shopping shop_type (JArr kept))
      | _ => shops_in_area rest area area_shopping
      end
  end.

Definition get_area_amenities (area : value) : result value :=
  schools <- get_schools_by_area area ;;
  parks <- py_get (dict_get (amenities self) "parks_and_recreation" (JObj []))
             "parks" (JArr []) ;;
  area_parks <- in_area parks area ;;
  match dict_get (amenities self) "shopping" (JObj []) with
  | JObj shopping =>
      area_shopping <- shops_in_area shopping area [] ;;
      Ok (JObj [("schools", JArr schools);
                ("parks", JArr area_parks);
                ("shopping", JObj area_shopping)])
  | _ => Raise AttributeError
  end.

(** *** Transaction operations *)

Definition get_recent_sales : value :=
  dict_get (transactions self) "recent_sales" (JArr []).

Definition get_sales_by_area (area : value) : result (list value) :=
  in_area get_recent_sales area.

(** [sum(sale.get(field, 0) for sale in sales)], from the left, starting
    at 0 *)
Fixpoint sum_field (field : string) (sales : list value) (acc : value)
  : result value :=
  match sales with
  | [] => Ok acc
  | sale :: rest =>
      v <- py_get sale field (int 0) ;;
      acc' <- py_add acc v ;;
      sum_field field rest acc'
  end.

Definition average (field : string) (sales : value) (total_sales : nat)
  : result value :=
  xs <- py_iter sales ;;
  s <- sum_field field xs (int 0) ;;
  py_div s total_sales.

Definition calculate_market_trends (area : value) : result value :=
  sales <- (if truthy area
            then l <- get_sales_by_area area ;; Ok (JArr l)
            else Ok get_recent_sales) ;;
  if negb (truthy sales) then Ok (JObj []) else
  total_sales <- py_len sales ;;
  avg_sale_price <- average "sale_price" sales total_sales ;;
  avg_days_on_market <- average "days_on_market" sales total_sales ;;
  avg_price_per_sqft <- average "price_per_sqft" sales total_sales ;;
  Ok (JObj [("total_sales", int (Z.of_nat total_sales));
            ("average_sale_price", avg_sale_price);
            ("average_days_on_market", avg_days_on_market);
            ("average_price_per_sqft", avg_price_per_sqft);
            ("area", if truthy area then area else JStr "All Areas")]).

(** *** Area operations *)

Definition get_all_areas : value :=
  dict_get (areas self) "areas" (JArr []).

Definition get_area_info (area_name : value) : result value :=
  ars <- py_iter get_all_areas ;;
  find_first
    (fun area =>
       n <- py_get area "name" (JStr "") ;;
       ln <- py_lower n ;;
       la <- py_lower area_name ;;
       Ok (String.eqb ln la))
    ars.

(** *** Cross-referencing *)

Definition get_property_insights (property_id : value) : result value :=
  prop <- get_property_by_id property_id ;;
  if negb (truthy prop) then Ok (JObj []) else
  area <- py_get prop "area" JNull ;;
  agent_id <- py_get prop "agent_id" JNull ;;
  agent <- get_agent_by_id agent_id ;;
  area_info <- get_area_info area ;;
  area_market_data <- get_area_market_data area ;;
  comparable_sales <- get_sales_by_area area ;;
  area_amenities <- get_area_amenities area ;;
  Ok (JObj [("property", prop);
            ("agent", agent);
            ("area_info", area_info);
            ("area_market_data", area_market_data);
            ("comparable_sales", JArr comparable_sales);
            ("area_amenities", area_amenities)]).

End Queries.

(** ** Filters with one field replaced

    [PropertyFilter(min_price=v, ...)] with the other fields as in
    [filters]. *)
Definition with_min_price (filters : PropertyFilter.t) (v : value) :=
  let f := filters in
  PropertyFilter.mk v (PropertyFilter.max_price f)
    (PropertyFilter.min_bedrooms f) (PropertyFilter.max_bedrooms f)
    (PropertyFilter.min_bathrooms f) (PropertyFilter.max_bathrooms f)
    (PropertyFilter.areas f) (PropertyFilter.property_types f)
    (PropertyFilter.min_sqft f) (PropertyFilter.max_sqft f)
    (PropertyFilter.features f).

Definition with_min_bedrooms (filters : PropertyFilter.t) (v : value) :=
  let f := filters in
  PropertyFilter.mk (PropertyFilter.min_price f) (PropertyFilter.max_price f)
    v (PropertyFilter.max_bedrooms f)
    (PropertyFilter.min_bathrooms f) (PropertyFilter.max_bathrooms f)
    (PropertyFilter.areas f) (PropertyFilter.property_types f)
    (PropertyFilter.min_sqft f) (PropertyFilter.max_sqft f)
    (PropertyFilter.features f).

Definition with_min_bathrooms (filters : PropertyFilter.t) (v : value) :=
  let f := filters in
  PropertyFilter.mk (PropertyFilter.min_price f) (PropertyFilter.max_price f)
    (PropertyFilter.min_bedrooms f) (PropertyFilter.max_bedrooms f)
    v (PropertyFilter.max_bathrooms f)
    (PropertyFilter.areas f) (PropertyFilter.property_types f)
    (PropertyFilter.min_sqft f) (PropertyFilter.max_sqft f)
    (PropertyFilter.features f).

Definition with_min_sqft (filters : PropertyFilter.t) (v : value) :=
  let f := filters in
  PropertyFilter.mk (PropertyFilter.min_price f) (PropertyFilter.max_price f)
    (PropertyFilter.min_bedrooms f) (PropertyFilter.max_bedrooms f)
    (PropertyFilter.min_bathrooms f) (PropertyFilter.max_bathrooms f)
    (PropertyFilter.areas f) (PropertyFilter.property_types f)
    v (PropertyFilter.max_sqft f)
    (PropertyFilter.features f).

(** ** Records and filters of the documented shape

    The shape that section 3 of the specification gives to a property
    record and that the annotations of [PropertyFilter] give to a filter:
    a field that is present holds a value of its kind. *)
Definition is_number (v : value) : bool :=
  match v with JNum _ => true | _ => false end.

Definition is_string (v : value) : bool :=
  match v with JStr _ => true | _ => false end.

Definition is_string_list (v : value) : bool :=
  match v with JArr l => forallb is_string l | _ => false end.

Definition field_is (kind : value -> bool) (d : dict) (k : string) : bool :=
  match dict_lookup k d with
  | Some v => kind v
  | None => true
  end.

Definition well_typed_property (prop : value) : bool :=
  match prop with
  | JObj d =>
      field_is is_number d "price" && field_is is_number d "bedrooms" &&
      field_is is_number d "bathrooms" && field_is is_number d "square_feet" &&
      field_is is_string d "area" && field_is is_string d "property_type" &&
      field_is is_string_list d "features"
  | _ => false
  end.

Definition unset_or (kind : value -> bool) (v : value) : bool :=
  match v with JNull => true | _ => kind v end.

Definition well_typed_filter (f : PropertyFilter.t) : bool :=
  unset_or is_number (PropertyFilter.min_price f) &&
  unset_or is_number (PropertyFilter.max_price f) &&
  unset_or is_number (PropertyFilter.min_bedrooms f) &&
  unset_or is_number (PropertyFilter.max_bedrooms f) &&
  unset_or is_number (PropertyFilter.min_bathrooms f) &&
  unset_or is_number (PropertyFilter.max_bathrooms f) &&
  unset_or is_string_list (PropertyFilter.areas f) &&
  unset_or is_string_list (PropertyFilter.property_types f) &&
  unset_or is_number (PropertyFilter.min_sqft f) &&
  unset_or is_number (PropertyFilter.max_sqft f) &&
  unset_or is_string_list (PropertyFilter.features f).

(** The four numeric fields of a property with the two filter fields that
    bound each. *)
Definition bounded_fields
  : list (string * (PropertyFilter.t -> value) * (PropertyFilter.t -> value)) :=
  [ ("price", PropertyFilter.min_price, PropertyFilter.max_price);
    ("bedrooms", PropertyFilter.min_bedrooms, PropertyFilter.max_bedrooms);
    ("bathrooms", PropertyFilter.min_bathrooms, PropertyFilter.max_bathrooms);
    ("square_feet", PropertyFilter.min_sqft, PropertyFilter.max_sqft) ].

(** ** Subsequences *)

Inductive Subseq {A : Type} : list A -> list A -> Prop :=
| Subseq_nil : Subseq [] []
| Subseq_skip (x : A) (l1 l2 : list A) : Subseq l1 l2 -> Subseq l1 (x :: l2)
| Subseq_keep (x : A) (l1 l2 : list A) : Subseq l1 l2 -> Subseq (x :: l1) (x :: l2).

(** ** Lookups by key

    What the records of a lookup are matched on: the [id] field compared
    with [==], or the [name] field compared after [lower()]. *)
Definition has_id (key : value) (d : dict) : bool :=
  py_eq (dict_get d "id" JNull) key.

Definition has_name (key : string) (d : dict) : bool :=
  match dict_get d "name" (JStr "") with
  | JStr n => String.eqb (lower n) (lower key)
  | _ => false
  end.

Definition name_is_string (d : dict) : Prop :=
  exists n, dict_get d "name" (JStr "") = JStr n.

Definition any_record (d : dict) : Prop := True.

(** A lookup is first-match over the sequence [all] when, for every
    manager whose sequence holds records of the given shape: a key that
    one record alone matches yields that record; a key that no record
    matches yields [None]; and a key that several records match yields the
    first of them in document order. *)
Definition first_match_lookup {K : Type}
  (lookup : RealEstateDataManager -> K -> result value)
  (all : RealEstateDataManager -> value)
  (shape : dict -> Prop) (matches : K -> dict -> bool) : Prop :=
  forall (self : RealEstateDataManager) (key : K),
    (forall pre r post,
        all self = JArr (map JObj (pre ++ r :: post)) ->
        Forall shape (pre ++ r :: post) ->
        matches key r = true ->
        (forall d, In d (pre ++ post) -> matches key d = false) ->
        lookup self key = Ok (JObj r))
    /\
    (forall rs,
        all self = JArr (map JObj rs) ->
        Forall shape rs ->
        (forall d, In d rs -> matches key d = false) ->
        lookup self key = Ok JNull)
    /\
    (forall pre r post,
        all self = JArr (map JObj (pre ++ r :: post)) ->
        Forall shape (pre ++ r :: post) ->
        matches key r = true ->
        (forall d, In d pre -> matches key d = false) ->
        lookup self key = Ok (JObj r)).

(** ** Outcomes other than a division by zero *)

Definition no_zero_division {A : Type} (r : result A) : Prop :=
  r <> Raise ZeroDivisionError.

(** ** Not matching

    A property does not match a filter when [_matches_filter] never
    accepts it and, the record and the filter having the documented shape,
    returns [False]. *)
Definition does_not_match (prop : value) (filters : PropertyFilter.t) : Prop :=
  _matches_filter prop filters <> Ok true /\
  (well_typed_property prop = true ->
   well_typed_filter filters = true ->
   _matches_filter prop filters = Ok false).

(** ** Joining strings *)

(** [sep.join(parts)] on strings *)
Fixpoint join_strs (sep : string) (parts : list string) : string :=
  match parts with
  | [] => ""
  | s :: rest =>
      match rest with
      | [] => s
      | _ :: _ => s ++ sep ++ join_strs sep rest
      end
  end.

(** The items of a [join] must all be [str]. *)
Fixpoint as_strs (items : list value) : result (list string) :=
  match items with
  | [] => Ok []
  | JStr s :: rest => strs <- as_strs rest ;; Ok (s :: strs)
  | _ :: _ => Raise TypeError
  end.

(** [sep.join(v)] for any iterable [v] *)
Definition py_join (sep : string) (v : value) : result string :=
  items <- py_iter v ;;
  strs <- as_strs items ;;
  Ok (join_strs sep strs).

(** [[x.get(field, 0) for x in items]] *)
Fixpoint get_each (field : string) (items : list value) : result (list value) :=
  match items with
  | [] => Ok []
  | x :: rest =>
      v <- py_get x field (int 0) ;;
      vs <- get_each field rest ;;
      Ok (v :: vs)
  end.

(** [sum(values)] of a list, from the left, starting at 0 *)
Fixpoint sum_values (values : list value) (acc : value) : result value :=
  match values with
  | [] => Ok acc
  | v :: rest => acc' <- py_add acc v ;; sum_values rest acc'
  end.

Section MoreQueries.

Variable self : RealEstateDataManager.

(** *** Property operations, continued *)

(** The text that [search_properties] searches in, for one listing *)
Definition property_text (prop : value) : result string :=
  address <- py_get prop "address" (JStr "") ;;
  description <- py_get prop "description" (JStr "") ;;
  area <- py_get prop "area" (JStr "") ;;
  feats <- py_get prop "features" (JArr []) ;;
  joined <- py_join " " feats ;;
  property_type <- py_get prop "property_type" (JStr "") ;;
  style <- py_get prop "style" (JStr "") ;;
  text <- py_join " "
            (JArr [address; description; area; JStr joined; property_type; style]) ;;
  Ok (lower text).

Definition search_properties (query : value) : result (list value) :=
  query_lower <- py_lower query ;;
  props <- py_iter (get_all_properties self) ;;
  select
    (fun prop => text <- property_text prop ;; Ok (contains query_lower text))
    props.

Definition get_properties_by_agent (agent_id : value) : result (list value) :=
  props <- py_iter (get_all_properties self) ;;
  select
    (fun prop => a <- py_get prop "agent_id" JNull ;; Ok (py_eq a agent_id))
    props.

Definition get_properties_by_area (area : value) : result (list value) :=
  in_area (get_all_properties self) area.

(** *** Agent operations, continued *)

Definition agent_text (agent : value) : result string :=
  name <- py_get agent "name" (JStr "") ;;
  specs <- py_get agent "specializations" (JArr []) ;;
  joined_specs <- py_join " " specs ;;
  expertise <- py_get agent "expertise_areas" (JArr []) ;;
  joined_expertise <- py_join " " expertise ;;
  bio <- py_get agent "bio" (JStr "") ;;
  text <- py_join " " (JArr [name; JStr joined_specs; JStr joined_expertise; bio]) ;;
  Ok (lower text).

Definition search_agents (query : value) : result (list value) :=
  query_lower <- py_lower query ;;
  ags <- py_iter (get_all_agents self) ;;
  select
    (fun agent => text <- agent_text agent ;; Ok (contains query_lower text))
    ags.

(** [_calculate_avg_days_on_market] and [_calculate_avg_rating] differ in
    the field they read only. *)
Definition calculate_avg (field : string) (records : value) : result value :=
  if negb (truthy records) then Ok (int 0) else
  xs <- py_iter records ;;
  values <- get_each field xs ;;
  match values with
  | [] => Ok (int 0)
  | _ :: _ =>
      s <- sum_values values (int 0) ;;
      py_div s (List.length values)
  end.

Definition _calculate_avg_days_on_market (sales : value) : result value :=
  calculate_avg "days_on_market" sales.

Definition _calculate_avg_rating (testimonials : value) : result value :=
  calculate_avg "rating" testimonials.

Definition get_agent_performance (agent_id : value) : result value :=
  agent <- get_agent_by_id self agent_id ;;
  if negb (truthy agent) then Ok (JObj []) else
  props <- get_properties_by_agent agent_id ;;
  recent_sales <- py_get agent "recent_sales" (JArr []) ;;
  name <- py_get agent "name" JNull ;;
  recent_sales_count <- py_len recent_sales ;;
  avg_days_on_market <- _calculate_avg_days_on_market recent_sales ;;
  sales <- py_iter recent_sales ;;
  total_sales_volume <- sum_field "sale_price" sales (int 0) ;;
  specializations <- py_get agent "specializations" (JArr []) ;;
  testimonials <- py_get agent "client_testimonials" (JArr []) ;;
  client_rating <- _calculate_avg_rating testimonials ;;
  Ok (JObj [("agent_id", agent_id);
            ("name", name);
            ("active_listings", int (Z.of_nat (List.length props)));
            ("recent_sales_count", int (Z.of_nat recent_sales_count));
            ("avg_days_on_market", avg_days_on_market);
            ("total_sales_volume", total_sales_volume);
            ("specializations", specializations);
            ("client_rating", client_rating)]).

(** *** Market operations, continued *)

Definition get_market_overview : value :=
  dict_get (market self) "market_overview" (JObj []).

Definition get_price_analytics : value :=
  dict_get (market self) "price_analytics" (JObj []).

Definition get_investment_opportunities : value :=
  dict_get (market self) "investment_opportunities" (JObj []).

(** The loop of [compare_areas] over area names:

      if area in area_performance:
          comparison[area] = area_performance[area]

    With a [str] on the left, [in] is a key test on a dict, a membership
    test on a list and a substring test on a string; the subscript that
    follows succeeds on a dict and is a [TypeError] on a list or a
    string. *)
Fixpoint compare_loop (area_performance : value) (areas : list string)
  (comparison : dict) : result dict :=
  match areas with
  | [] => Ok comparison
  | area :: rest =>
      present <- py_in (JStr area) area_performance ;;
      if present then
        match area_performance with
        | JObj d =>
            compare_loop area_performance rest
              (dict_set comparison area (dict_get d area JNull))
        | _ => Raise TypeError
        end
      else compare_loop area_performance rest comparison
  end.

Definition compare_areas (areas : list string) : result dict :=
  compare_loop (dict_get (market self) "area_performance" (JObj [])) areas [].

(** *** Client and transaction operations, continued *)

Definition get_clients_by_agent (agent_id : value) : result (list value) :=
  cls <- py_iter (get_all_clients self) ;;
  select
    (fun client => a <- py_get client "agent_id" JNull ;; Ok (py_eq a agent_id))
    cls.

Definition get_sales_by_agent (agent_id : value) : result (list value) :=
  sales <- py_iter (get_recent_sales self) ;;
  select
    (fun sale => a <- py_get sale "agent_id" JNull ;; Ok (py_eq a agent_id))
    sales.

(** *** Area operations, continued *)

Definition get_city_overview : value :=
  JObj [("city_name", dict_get (areas self) "city_name" JNull);
        ("state", dict_get (areas self) "state" JNull);
        ("population", dict_get (areas self) "population" JNull);
        ("median_income", dict_get (areas self) "median_income" JNull);
        ("school_districts", dict_get (areas self) "school_districts" (JArr []));
        ("market_trends", dict_get (areas self) "market_trends" (JObj []))].

(** *** Cross-referencing, continued *)


Definition get_agent_dashboard (agent_id : value) : result value :=
  agent <- get_agent_by_id self agent_id ;;
  if negb (truthy agent) then Ok (JObj []) else
  performance <- get_agent_performance agent_id ;;
  active_listings <- get_properties_by_agent agent_id ;;
  agent_clients <- get_clients_by_agent agent_id ;;
  recent_sales <- get_sales_by_agent agent_id ;;
  Ok (JObj [("agent_info", agent);
            ("performance", performance);
            ("active_listings", JArr active_listings);
            ("clients", JArr agent_clients);
            ("recent_sales", JArr recent_sales)]).

End MoreQueries.

(** ** Reading fields of records of the documented shape *)

(** The string under [k], [""] when there is none *)
Definition str_field (d : dict) (k : string) : string :=
  match dict_get d k (JStr "") with
  | JStr s => s
  | _ => ""
  end.

Fixpoint strs_of (items : list value) : list string :=
  match items with
  | [] => []
  | JStr s :: rest => s :: strs_of rest
  | _ :: rest => strs_of rest
  end.

(** The strings under [k], none when the field is missing *)
Definition strs_field (d : dict) (k : string) : list string :=
  match dict_get d k (JArr []) with
  | JArr l => strs_of l
  | _ => []
  end.

(** A record whose [area], when present, is a string *)
Definition area_is_string (d : dict) : bool :=
  field_is is_string d "area".

(** The test of the area queries on such a record *)
Definition in_area_named (area : string) (d : dict) : bool :=
  String.eqb (lower (str_field d "area")) (lower area).

(** The test of the queries by agent *)
Definition has_agent (agent_id : value) (d : dict) : bool :=
  py_eq (dict_get d "agent_id" JNull) agent_id.

(** ** Bounds on a field value

    [v] is a number that is not below (not above) the finite bound [q], in
    the sense of Python's [<] ([>]): the test of the bound came out
    [False]. *)
Definition not_below (v : value) (q : Q) : Prop :=
  exists n, as_num v = Some n /\ num_lt n (Fin q) = false.

Definition not_above (v : value) (q : Q) : Prop :=
  exists n, as_num v = Some n /\ num_lt (Fin q) n = false.

(** The filter that [match_clients_to_properties] builds from the four
    preference values *)
Definition preference_filter (lo hi desired ptype : value) : PropertyFilter.t :=
  PropertyFilter.mk lo hi JNull JNull JNull JNull
    desired (if truthy ptype then JArr [ptype] else JNull)
    JNull JNull JNull.

(** ** Records that can be searched

    The shape under which the text of a record can be built: the text
    fields, when present, are strings, and the list fields lists of
    strings. *)
Definition searchable_property (prop : value) : bool :=
  match prop with
  | JObj d =>
      field_is is_string d "address" && field_is is_string d "description" &&
      field_is is_string d "area" && field_is is_string_list d "features" &&
      field_is is_string d "property_type" && field_is is_string d "style"
  | _ => false
  end.

Definition searchable_agent (agent : value) : bool :=
  match agent with
  | JObj d =>
      field_is is_string d "name" &&
      field_is is_string_list d "specializations" &&
      field_is is_string_list d "expertise_areas" &&
      field_is is_string d "bio"
  | _ => false
  end.

(** The strings of a listing, and of an agent, that a search looks into *)
Definition property_strings (d : dict) : list string :=
  [str_field d "address"; str_field d "description"; str_field d "area"]
  ++ strs_field d "features"
  ++ [str_field d "property_type"; str_field d "style"].

Definition agent_strings (d : dict) : list string :=
  [str_field d "name"]
  ++ strs_field d "specializations"
  ++ strs_field d "expertise_areas"
  ++ [str_field d "bio"].

(** [s] occurs in [t] *)
Definition within (s t : string) : Prop :=
  exists a b : string, t = (a ++ s ++ b)%string.

(** ** Comparing lower bounds

    The last step of [_matches_filter], on the features. *)
Definition features_check (prop : value) (filters : PropertyFilter.t)
  : result bool :=
  if truthy (PropertyFilter.features filters)
  then prop_features <- py_get prop "features" (JArr []) ;;
       required <- py_iter (PropertyFilter.features filters) ;;
       all_features prop_features required
  else Ok true.

(** A lower bound value that asks no more than the finite bound [q]: it
    is not tested at all ([None], 0), or it is a finite number at most
    [q]. *)
Definition no_stricter (v : value) (q : Q) : Prop :=
  truthy v = false \/ exists q', v = JNum (Fin q') /\ q' <= q.

(** ** Loading the documents

    What reading and parsing one file comes to.  [_load_json_file] catches
    [FileNotFoundError] and [json.JSONDecodeError]; other failures of
    [open] are not caught by the code and are not part of the model.  A
    parsed document is a [dict], as the annotations say. *)
Inductive read_outcome : Type :=
| Parsed (data : dict)
| FileNotFound
| JSONDecodeError.

Definition filesystem : Type := string -> read_outcome.

(** [self._cache], a dict from file path to parsed document *)
Definition cache : Type := list (string * dict).

Fixpoint cache_lookup (filepath : string) (c : cache) : option dict :=
  match c with
  | [] => None
  | (p, data) :: rest =>
      if String.eqb filepath p then Some data else cache_lookup filepath rest
  end.

Fixpoint cache_set (c : cache) (filepath : string) (data : dict) : cache :=
  match c with
  | [] => [(filepath, data)]
  | (p, old) :: rest =>
      if String.eqb filepath p then (p, data) :: rest
      else (p, old) :: cache_set rest filepath data
  end.

(** The manager with its loading state: the directory, the cache, the seven
    documents, and the paths of the warnings printed to [sys.stderr]. *)
Record Loader : Type := {
  data_dir : string;
  _cache : cache;
  documents : RealEstateDataManager;
  stderr : list string
}.

Fixpoint ends_with_slash (s : string) : bool :=
  match s with
  | EmptyString => false
  | String c EmptyString => Ascii.eqb c "/"
  | String _ rest => ends_with_slash rest
  end.

(** [os.path.join] on POSIX, one component at a time *)
Definition join_path (path component : string) : string :=
  if String.prefix "/" component then component
  else if String.eqb path "" || ends_with_slash path then path ++ component
  else path ++ "/" ++ component.

Definition os_path_join (path : string) (components : list string) : string :=
  fold_left join_path components path.

Section Loading.

Variable fs : filesystem.

(** [_load_json_file]: the document, the cache and the warnings after the
    call *)
Definition _load_json_file (filepath : string) (c : cache) (warned : list string)
  : dict * cache * list string :=
  match cache_lookup filepath c with
  | Some data => (data, c, warned)
  | None =>
      match fs filepath with
      | Parsed data => (data, cache_set c filepath data, warned)
      | FileNotFound | JSONDecodeError => ([], c, warned ++ [filepath])
      end
  end.

Definition _load_all_data (self : Loader) : Loader :=
  let dir := data_dir self in
  let '(props, c, w) :=
    _load_json_file (os_path_join dir ["properties"; "active_listings.json"])
      (_cache self) (stderr self) in
  let '(ags, c, w) :=
    _load_json_file (os_path_join dir ["agents"; "agent_profiles.json"]) c w in
  let '(mkt, c, w) :=
    _load_json_file (os_path_join dir ["market"; "market_analytics.json"]) c w in
  let '(cls, c, w) :=
    _load_json_file (os_path_join dir ["clients"; "client_database.json"]) c w in
  let '(ams, c, w) :=
    _load_json_file (os_path_join dir ["amenities"; "local_amenities.json"]) c w in
  let '(trs, c, w) :=
    _load_json_file (os_path_join dir ["transactions"; "recent_sales.json"]) c w in
  let '(ars, c, w) :=
    _load_json_file (os_path_join dir ["areas"; "city_overview.json"]) c w in
  {| data_dir := dir;
     _cache := c;
     documents :=
       {| properties := props; agents := ags; market := mkt; clients := cls;
          amenities := ams; transactions := trs; areas := ars |};
     stderr := w |}.

(** [refresh_data] *)
Definition refresh_data (self : Loader) : Loader :=
  _load_all_data
    {| data_dir := data_dir self; _cache := [];
       documents := documents self; stderr := stderr self |}.


End Loading.


Definition unreadable (fs : filesystem) (filepath : string) : bool :=
  match fs filepath with
  | Parsed _ => false
  | FileNotFound | JSONDecodeError => true
  end.




(** ** Sample documents

    A small data set in the layout of section 6 of the specification, used
    to run the queries on concrete input. *)

Definition listing_p1 : dict :=
  [("id", JStr "p1"); ("price", int 500000); ("bedrooms", int 3);
   ("area", JStr "Downtown"); ("agent_id", JStr "a1")].

Definition listing_p2 : dict :=
  [("id", JStr "p2"); ("price", int 750000); ("bedrooms", int 4);
   ("area", JStr "Uptown"); ("agent_id", JStr "a2")].

(** A sparse listing: no price, no bedrooms, no area. *)
Definition listing_p3 : dict :=
  [("id", JStr "p3"); ("agent_id", JStr "a1")].

Definition agent_a1 : dict := [("id", JStr "a1"); ("name", JStr "Ann")].
Definition agent_a1_again : dict := [("id", JStr "a1"); ("name", JStr "Bob")].
Definition agent_a2 : dict := [("id", JStr "a2"); ("name", JStr "Cy")].

Definition client_buyer : dict :=
  [("id", JStr "c1"); ("type", JStr "Buyer");
   ("preferences",
    JObj [("budget_range", JObj [("min", int 600000); ("max", int 800000)])])].

Definition client_seller : dict :=
  [("id", JStr "c2"); ("type", JStr "Seller");
   ("preferences",
    JObj [("budget_range", JObj [("min", int 100000); ("max", int 900000)])])].

Definition client_untyped : dict := [("id", JStr "c3")].

Definition school (name : string) : value := JObj [("name", JStr name)].

Definition sale_downtown : dict :=
  [("area", JStr "Downtown"); ("sale_price", int 480000);
   ("days_on_market", int 20); ("price_per_sqft", int 300)].

Definition area_downtown : dict := [("name", JStr "Downtown")].
Definition area_uptown : dict := [("name", JStr "Uptown")].
Definition area_uptown_again : dict :=
  [("name", JStr "UPTOWN"); ("note", JStr "second entry")].

Definition sample : RealEstateDataManager :=
  {| properties :=
       [("active_listings",
         JArr (map JObj [listing_p1; listing_p2; listing_p3]))];
     agents :=
       [("agents", JArr (map JObj [agent_a2; agent_a1; agent_a1_again]))];
     market :=
       [("area_performance", JObj [("Downtown", JObj [("median", int 1)])])];
     clients :=
       [("clients",
         JArr (map JObj [client_buyer; client_seller; client_untyped]))];
     amenities :=
       [("schools",
         JObj [("high_schools", JArr [school "H1"]);
               ("elementary_schools", JArr [school "E1"; school "E2"]);
               ("private_schools", JArr [school "P1"])]);
        ("parks_and_recreation",
         JObj [("parks", JArr [JObj [("area", JStr "Downtown")]])]);
        ("healthcare", JArr [JObj [("name", JStr "Clinic")]])];
     transactions := [("recent_sales", JArr [JObj sale_downtown])];
     areas :=
       [("areas",
         JArr (map JObj [area_downtown; area_uptown; area_uptown_again]))] |}.

(** The manager whose seven files all failed to load. *)
Definition empty_manager : RealEstateDataManager :=
  {| properties := []; agents := []; market := []; clients := [];
     amenities := []; transactions := []; areas := [] |}.

Definition only_min_price (v : value) : PropertyFilter.t :=
  with_min_price PropertyFilter.default v.

Definition only_max_price (v : value) : PropertyFilter.t :=
  PropertyFilter.mk JNull v JNull JNull JNull JNull JNull JNull JNull JNull JNull.

(** ** More sample data *)

Definition listing_garage : dict :=
  [("id", JStr "p4"); ("price", int 300000); ("area", JStr "Downtown");
   ("property_type", JStr "Condo");
   ("features", JArr [JStr "Pool"; JStr "2-Car Garage"])].

Definition garage_manager : RealEstateDataManager :=
  {| properties :=
       [("active_listings", JArr (map JObj [listing_p1; listing_garage]))];
     agents := []; market := []; clients := []; amenities := [];
     transactions := []; areas := [] |}.

Definition filter_on (ars ptypes feats : value) : PropertyFilter.t :=
  PropertyFilter.mk JNull JNull JNull JNull JNull JNull ars ptypes JNull JNull feats.

Definition client_open_buyer : dict := [("id", JStr "c4"); ("type", JStr "Buyer")].

Definition open_buyer_manager : RealEstateDataManager :=
  {| properties :=
       [("active_listings", JArr (map JObj [listing_p1; listing_garage]))];
     agents := []; market := [];
     clients := [("clients", JArr (map JObj [client_seller; client_open_buyer]))];
     amenities := []; transactions := []; areas := [] |}.

Definition agent_with_sales : dict :=
  [("id", JStr "a7"); ("name", JStr "Dee");
   ("recent_sales",
    JArr [JObj [("sale_price", int 100); ("days_on_market", int 10)];
          JObj [("sale_price", int 300)]]);
   ("client_testimonials", JArr [JObj [("rating", int 5)]])].

Definition market_manager : RealEstateDataManager :=
  {| properties := [];
     agents := [("agents", JArr (map JObj [agent_with_sales]))];
     market :=
       [("area_performance",
         JObj [("Downtown", JObj [("median", int 1)]);
               ("Uptown", JObj [("median", int 2)])])];
     clients := []; amenities := [];
     transactions :=
       [("recent_sales",
         JArr (map JObj [sale_downtown;
                         [("area", JStr "Uptown"); ("sale_price", int 1)];
                         [("area", JStr "downtown"); ("sale_price", int 520000)]]))];
     areas := [] |}.

(** Two directories: in the first only the listings exist; in the second
    every other file exists too and holds [{}], except the agents file,
    which is not valid JSON. *)
Definition listings_document : dict :=
  [("active_listings", JArr (map JObj [listing_p1; listing_p2]))].

Definition disk_listings_only : filesystem :=
  fun filepath =>
    if String.eqb filepath "data/properties/active_listings.json"
    then Parsed listings_document
    else FileNotFound.


Definition stale_loader : Loader :=
  {| data_dir := "data";
     _cache := [("data/properties/active_listings.json", [])];
     documents := empty_manager;
     stderr := [] |}.

Definition shop (name area : string) : value :=
  JObj [("name", JStr name); ("area", JStr area)].

Definition shopping_manager : RealEstateDataManager :=
  {| properties := []; agents := []; market := []; clients := [];
     amenities :=
       [("shopping",
         JObj [("malls", JArr [shop "Galleria" "Downtown"; shop "Plaza" "Uptown"]);
               ("note", JStr "updated monthly");
               ("markets", JArr [shop "Farmers" "Uptown"])])];
     transactions := []; areas := [] |}.

(** * Properties *)

(** ** Running the model *)

Example py_eq_int_float : py_eq (JBool true) (int 1) = true.
Proof. reflexivity. Qed.

Example py_lt_none : py_lt JNull (int 1) = Raise TypeError.
Proof. reflexivity. Qed.

Example py_in_substring : py_in (JStr "ar") (JStr "garage") = Ok true.
Proof. reflexivity. Qed.

Example filter_min_price_600000 :
  filter_properties sample (only_min_price (int 600000)) = Ok [JObj listing_p2].
Proof. reflexivity. Qed.

Example match_buyer_c1 :
  match_clients_to_properties sample (JStr "c1") = Ok [JObj listing_p2].
Proof. reflexivity. Qed.

Example insights_p1_ok :
  exists v, get_property_insights sample (JStr "p1") = Ok v.
Proof. eexists. reflexivity. Qed.

Example trends_downtown :
  calculate_market_trends sample (JStr "downtown")
  = Ok (JObj [("total_sales", int 1);
              ("average_sale_price", JNum (Fin (480000 / 1)));
              ("average_days_on_market", JNum (Fin (20 / 1)));
              ("average_price_per_sqft", JNum (Fin (300 / 1)));
              ("area", JStr "downtown")]).
Proof. reflexivity. Qed.

(** ** The two loops *)

Section Loops.

Variable cond : value -> result bool.

Lemma find_first_none (items : list value) :
  (forall x, In x items -> cond x = Ok false) ->
  find_first cond items = Ok JNull.
Proof.
  induction items as [|x rest IH]; intros H; simpl.
  - reflexivity.
  - rewrite (H x (or_introl eq_refl)). simpl.
    apply IH. intros y Hy. apply H. now right.
Qed.

Lemma find_first_hit (pre : list value) (r : value) (post : list value) :
  (forall x, In x pre -> cond x = Ok false) ->
  cond r = Ok true ->
  find_first cond (pre ++ r :: post) = Ok r.
Proof.
  induction pre as [|x pre IH]; intros Hpre Hr; simpl.
  - now rewrite Hr.
  - rewrite (Hpre x (or_introl eq_refl)). simpl.
    apply IH; [|exact Hr]. intros y Hy. apply Hpre. now right.
Qed.

Lemma select_subseq (items kept : list value) :
  select cond items = Ok kept -> Subseq kept items.
Proof.
  revert kept. induction items as [|x rest IH]; simpl; intros kept H.
  - injection H as <-. constructor.
  - destruct (cond x) as [b|e]; simpl in H; [|discriminate].
    destruct (select cond rest) as [k|e]; simpl in H; [|discriminate].
    injection H as <-. specialize (IH k eq_refl).
    destruct b; now constructor.
Qed.

Lemma select_total (items : list value) :
  (forall x, In x items -> exists b, cond x = Ok b) ->
  exists kept, select cond items = Ok kept.
Proof.
  induction items as [|x rest IH]; intros H; simpl.
  - now exists [].
  - destruct (H x (or_introl eq_refl)) as [b ->].
    destruct IH as [k ->]; [intros y Hy; apply H; now right|].
    simpl. eauto.
Qed.

Lemma select_all (items : list value) :
  (forall x, In x items -> cond x = Ok true) ->
  select cond items = Ok items.
Proof.
  induction items as [|x rest IH]; intros H; simpl.
  - reflexivity.
  - rewrite (H x (or_introl eq_refl)), IH; [reflexivity|].
    intros y Hy. apply H. now right.
Qed.

Lemma select_excludes (items kept : list value) (x : value) :
  select cond items = Ok kept -> cond x <> Ok true -> ~ In x kept.
Proof.
  revert kept. induction items as [|y rest IH]; simpl; intros kept H Hx.
  - injection H as <-. intros [].
  - destruct (cond y) as [b|e] eqn:Hy; simpl in H; [|discriminate].
    destruct (select cond rest) as [k|e]; simpl in H; [|discriminate].
    injection H as <-. specialize (IH k eq_refl Hx).
    destruct b; [|exact IH].
    intros [->|Hin]; [now apply Hx|now apply IH].
Qed.

End Loops.

Lemma select_ext (c1 c2 : value -> result bool) (items : list value) :
  (forall x, c1 x = c2 x) -> select c1 items = select c2 items.
Proof.
  intros H. induction items as [|x rest IH]; simpl.
  - reflexivity.
  - now rewrite H, IH.
Qed.

Lemma Subseq_In {A : Type} (l1 l2 : list A) :
  Subseq l1 l2 -> forall x, In x l1 -> In x l2.
Proof.
  induction 1 as [|y l1 l2 _ IH|y l1 l2 _ IH]; intros x Hx.
  - exact Hx.
  - right. now apply IH.
  - destruct Hx as [->|Hx]; [now left|right; now apply IH].
Qed.

Lemma in_map_JObj (d : dict) (rs : list dict) :
  In (JObj d) (map JObj rs) -> In d rs.
Proof.
  intros H. apply in_map_iff in H. destruct H as [d' [E Hd]].
  now injection E as ->.
Qed.

(** ** Equality with a string *)

Lemma py_eq_str (v : value) (s : string) :
  py_eq v (JStr s) = true <-> v = JStr s.
Proof.
  destruct v; simpl; try (split; discriminate).
  destruct (String.eqb_spec s0 s); split; congruence.
Qed.

(** ** The checks of [_matches_filter] *)

Lemma return_false_if_Ok (b : bool) (rest : result bool) :
  return_false_if (Ok b) rest = if b then Ok false else rest.
Proof. reflexivity. Qed.

Lemma return_false_if_true (c rest : result bool) :
  return_false_if c rest = Ok true -> c = Ok false /\ rest = Ok true.
Proof.
  destruct c as [[|]|e]; simpl; intros H; try discriminate. now split.
Qed.

Lemma truthy_nonzero (q : Q) : ~ q == 0 -> truthy (JNum (Fin q)) = true.
Proof.
  intros H. simpl. destruct (Qeq_bool q 0) eqn:E; [|reflexivity].
  apply Qeq_bool_iff in E. contradiction.
Qed.

Section Checks.

Variables (d : dict) (k : string).

Lemma below_total (bound : value) :
  field_is is_number d k = true ->
  unset_or is_number bound = true ->
  exists b, below (JObj d) k bound = Ok b.
Proof.
  unfold below, field_is, py_get, dict_get. intros Hd Hb.
  destruct bound as [| |n| | |]; try discriminate; [now exists false|].
  destruct (truthy (JNum n)); [|eauto].
  destruct (dict_lookup k d) as [[]|]; try discriminate; simpl; eauto.
Qed.

Lemma above_total (bound : value) :
  field_is is_number d k = true ->
  unset_or is_number bound = true ->
  exists b, above (JObj d) k bound = Ok b.
Proof.
  unfold above, field_is, py_get, dict_get, py_gt. intros Hd Hb.
  destruct bound as [| |n| | |]; try discriminate; [now exists false|].
  destruct (truthy (JNum n)); [|eauto].
  destruct (dict_lookup k d) as [[]|]; try discriminate; simpl; eauto.
Qed.

Lemma outside_total (allowed : value) :
  unset_or is_string_list allowed = true ->
  exists b, outside (JObj d) k allowed = Ok b.
Proof.
  unfold outside, py_get. intros Ha.
  destruct allowed as [| | | |l|]; try discriminate; [now exists false|].
  destruct (truthy (JArr l)); simpl; eauto.
Qed.

(** A missing field is read as 0 by the lower bound check: any bound
    above 0 rejects. *)
Lemma below_missing (q : Q) :
  dict_lookup k d = None -> 0 < q ->
  below (JObj d) k (JNum (Fin q)) = Ok true.
Proof.
  intros Hk Hq. unfold below.
  rewrite truthy_nonzero.
  - unfold py_get, dict_get. rewrite Hk. simpl.
    destruct (Qle_bool q (inject_Z 0)) eqn:E; [|reflexivity].
    apply Qle_bool_iff in E. exfalso. now apply (Qlt_not_le 0 q).
  - intros E. rewrite E in Hq. now apply (Qlt_irrefl 0).
Qed.

(** A missing field is read as +infinity by the upper bound check: any
    finite bound that is tested rejects. *)
Lemma above_missing (q : Q) :
  dict_lookup k d = None -> ~ q == 0 ->
  above (JObj d) k (JNum (Fin q)) = Ok true.
Proof.
  intros Hk Hq. unfold above. rewrite truthy_nonzero by exact Hq.
  unfold py_get, dict_get. now rewrite Hk.
Qed.

End Checks.

Lemma any_feature_total (required : value) (fs : list value) :
  is_string required = true -> forallb is_string fs = true ->
  exists b, any_feature required fs = Ok b.
Proof.
  intros Hr. induction fs as [|f fs IH]; simpl; intros Hfs.
  - eauto.
  - apply andb_prop in Hfs. destruct Hfs as [Hf Hfs].
    destruct required; try discriminate. destruct f; try discriminate.
    simpl. destruct (contains _ _); eauto.
Qed.

Lemma all_features_total (fs required : list value) :
  forallb is_string fs = true -> forallb is_string required = true ->
  exists b, all_features (JArr fs) required = Ok b.
Proof.
  intros Hfs. induction required as [|r rs IH]; simpl; intros Hrs.
  - eauto.
  - apply andb_prop in Hrs. destruct Hrs as [Hr Hrs].
    destruct (any_feature_total r fs Hr Hfs) as [b ->]. simpl.
    destruct b; eauto.
Qed.

Ltac split_andb :=
  repeat match goal with
         | H : _ && _ = true |- _ => apply andb_prop in H; destruct H
         end.

(** One step through [_matches_filter] for a record and a filter of the
    documented shape: the check at the head returns, and when it rejects
    the function has returned [False]. *)
Ltac head_check :=
  match goal with
  | |- return_false_if ?c _ = _ => c
  | |- exists b, return_false_if ?c _ = _ => c
  end.

Ltac pass_check :=
  let b := fresh "b" in
  let E := fresh "E" in
  let c := head_check in
  lazymatch c with
  | below (JObj ?d) ?k ?v =>
      destruct (below_total d k v) as [b E]; [assumption|assumption|]
  | above (JObj ?d) ?k ?v =>
      destruct (above_total d k v) as [b E]; [assumption|assumption|]
  | outside (JObj ?d) ?k ?v =>
      destruct (outside_total d k v) as [b E]; [assumption|]
  end;
  rewrite E, return_false_if_Ok; destruct b; [solve [eauto]|].

Lemma matches_filter_total (prop : value) (filters : PropertyFilter.t) :
  well_typed_property prop = true ->
  well_typed_filter filters = true ->
  exists b, _matches_filter prop filters = Ok b.
Proof.
  intros Hp Hf. destruct prop as [| | | | |d]; try discriminate.
  unfold well_typed_property, well_typed_filter in *. split_andb.
  unfold _matches_filter. do 10 pass_check.
  destruct (PropertyFilter.features filters) as [| | | |required|];
    try discriminate; [now exists true|].
  destruct (truthy (JArr required)); [|eauto].
  unfold py_get, dict_get, field_is in *. simpl.
  destruct (dict_lookup "features" d) as [[| | | |fs|]|]; try discriminate.
  - now apply all_features_total.
  - now apply (all_features_total []).
Qed.

(** A record that [_matches_filter] does not accept is not among the
    results of [filter_properties]. *)
Lemma filter_properties_excludes (self : RealEstateDataManager)
  (filters : PropertyFilter.t) (prop : value) (res : list value) :
  filter_properties self filters = Ok res ->
  _matches_filter prop filters <> Ok true ->
  ~ In prop res.
Proof.
  unfold filter_properties. intros H Hp.
  destruct (py_iter (get_all_properties self)) as [props|e]; [|discriminate].
  simpl in H. now apply (select_excludes _ _ _ _ H).
Qed.

(** ** Missing numeric fields (C2) *)

(** C2, as stated, fails.  [listing_p3] has no [price].  A filter whose
    only field is [max_price = 0], a finite bound, accepts it: the guard
    [filters.max_price and ...] skips a bound of 0.  A filter whose only
    field is [min_price = -1], a bound other than 0 and not unset, accepts
    it too: the default 0 is not below -1. *)
Lemma missing_price_accepted_by_zero_max_and_negative_min :
  dict_lookup "price" listing_p3 = None /\
  _matches_filter (JObj listing_p3) (only_max_price (int 0)) = Ok true /\
  _matches_filter (JObj listing_p3) (only_min_price (int (-1))) = Ok true.
Proof. repeat split. Qed.

(** When [_matches_filter] accepts, each of its ten bound and membership
    checks has returned without rejecting. *)
Lemma matches_filter_accepts (prop : value) (filters : PropertyFilter.t) :
  _matches_filter prop filters = Ok true ->
  below prop "price" (PropertyFilter.min_price filters) = Ok false /\
  above prop "price" (PropertyFilter.max_price filters) = Ok false /\
  below prop "bedrooms" (PropertyFilter.min_bedrooms filters) = Ok false /\
  above prop "bedrooms" (PropertyFilter.max_bedrooms filters) = Ok false /\
  below prop "bathrooms" (PropertyFilter.min_bathrooms filters) = Ok false /\
  above prop "bathrooms" (PropertyFilter.max_bathrooms filters) = Ok false /\
  outside prop "area" (PropertyFilter.areas filters) = Ok false /\
  outside prop "property_type" (PropertyFilter.property_types filters)
  = Ok false /\
  below prop "square_feet" (PropertyFilter.min_sqft filters) = Ok false /\
  above prop "square_feet" (PropertyFilter.max_sqft filters) = Ok false.
Proof.
  unfold _matches_filter. intros H.
  repeat (apply return_false_if_true in H;
          let C := fresh "C" in destruct H as [C H]).
  repeat split; assumption.
Qed.

(** C2, amended.  Take a property record and one of [price], [bedrooms],
    [bathrooms], [square_feet] that it lacks.  If the filter sets the
    field's upper bound to a finite number other than 0, the property
    does not match; if it sets the field's lower bound to a number above
    0, the property does not match. *)
Theorem missing_field_fails_bounds
  (d : dict) (filters : PropertyFilter.t)
  (field : string) (lo hi : PropertyFilter.t -> value) :
  In (field, lo, hi) bounded_fields ->
  dict_lookup field d = None ->
  (forall q, hi filters = JNum (Fin q) -> ~ q == 0 ->
             does_not_match (JObj d) filters) /\
  (forall q, lo filters = JNum (Fin q) -> 0 < q ->
             does_not_match (JObj d) filters).
Proof.
  intros Hin Hk. simpl in Hin.
  destruct Hin as [E|[E|[E|[E|[]]]]]; injection E as <- <- <-;
    (split; intros q Hq Hpos;
     [ pose proof (above_missing d _ q Hk Hpos) as Hrej
     | pose proof (below_missing d _ q Hk Hpos) as Hrej ];
     rewrite <- Hq in Hrej;
     (split;
      [ intros Hacc; apply matches_filter_accepts in Hacc;
        destruct Hacc as (C1 & C2 & C3 & C4 & C5 & C6 & C7 & C8 & C9 & C10);
        congruence
      | intros Hp Hf;
        unfold well_typed_property, well_typed_filter in *; split_andb;
        unfold _matches_filter; rewrite Hrej;
        repeat pass_check; reflexivity ])).
Qed.

Lemma missing_field_fails_bounds_witness :
  does_not_match (JObj listing_p3) (only_max_price (int 500000)) /\
  does_not_match (JObj listing_p3) (only_min_price (int 1)).
Proof.
  split.
  - apply (proj1 (missing_field_fails_bounds listing_p3
                    (only_max_price (int 500000)) "price"
                    PropertyFilter.min_price PropertyFilter.max_price
                    (or_introl eq_refl) eq_refl)
             (inject_Z 500000) eq_refl).
    discriminate.
  - apply (proj2 (missing_field_fails_bounds listing_p3
                    (only_min_price (int 1)) "price"
                    PropertyFilter.min_price PropertyFilter.max_price
                    (or_introl eq_refl) eq_refl)
             (inject_Z 1) eq_refl).
    reflexivity.
Defined.

(** ** A lower bound of 0 (C3) *)

(** C3.  For every manager and every filter, putting 0 in [min_price],
    [min_bedrooms], [min_bathrooms] or [min_sqft] gives the same outcome of
    [filter_properties] as leaving that field [None]. *)
Theorem zero_min_same_as_unset
  (self : RealEstateDataManager) (filters : PropertyFilter.t) :
  filter_properties self (with_min_price filters (int 0))
  = filter_properties self (with_min_price filters JNull)
  /\
  filter_properties self (with_min_bedrooms filters (int 0))
  = filter_properties self (with_min_bedrooms filters JNull)
  /\
  filter_properties self (with_min_bathrooms filters (int 0))
  = filter_properties self (with_min_bathrooms filters JNull)
  /\
  filter_properties self (with_min_sqft filters (int 0))
  = filter_properties self (with_min_sqft filters JNull).
Proof.
  unfold filter_properties.
  destruct (py_iter (get_all_properties self)) as [props|e]; simpl.
  - repeat split; apply select_ext; intros prop; reflexivity.
  - repeat split.
Qed.

(** ** The filter with nothing set (C4) *)

(** C4.  For every manager whose listings are a sequence, [filter_properties]
    with [PropertyFilter()] returns that sequence, element for element. *)
Theorem unset_filter_returns_all
  (self : RealEstateDataManager) (all : list value) :
  get_all_properties self = JArr all ->
  filter_properties self PropertyFilter.default = Ok all.
Proof.
  intros H. unfold filter_properties. rewrite H. simpl.
  apply select_all. intros prop _. reflexivity.
Qed.

Lemma unset_filter_returns_all_witness :
  filter_properties sample PropertyFilter.default
  = Ok (map JObj [listing_p1; listing_p2; listing_p3]).
Proof. apply (unset_filter_returns_all sample). reflexivity. Defined.

(** ** Results are subsequences (C5) *)

(** C5.  For every manager whose listings are a sequence and every filter,
    a result of [filter_properties] is a subsequence of the listings, so
    each returned record is one of them; and when the listings and the
    filter have the documented shape there is a result. *)
Theorem filter_properties_subsequence
  (self : RealEstateDataManager) (filters : PropertyFilter.t)
  (all : list value) :
  get_all_properties self = JArr all ->
  (forall res, filter_properties self filters = Ok res ->
               Subseq res all /\ forall x, In x res -> In x all)
  /\
  (forallb well_typed_property all = true ->
   well_typed_filter filters = true ->
   exists res, filter_properties self filters = Ok res).
Proof.
  intros H. unfold filter_properties. rewrite H. simpl. split.
  - intros res Hres. apply select_subseq in Hres.
    split; [exact Hres|]. now apply Subseq_In.
  - intros Hall Hf. apply select_total. intros prop Hin.
    apply matches_filter_total; [|exact Hf].
    rewrite forallb_forall in Hall. now apply Hall.
Qed.

Lemma filter_properties_subsequence_witness :
  Subseq [JObj listing_p2] (map JObj [listing_p1; listing_p2; listing_p3]) /\
  exists res, filter_properties sample (only_min_price (int 600000)) = Ok res.
Proof.
  pose proof (filter_properties_subsequence sample
                (only_min_price (int 600000))
                (map JObj [listing_p1; listing_p2; listing_p3]) eq_refl)
    as [Hsub Htot].
  split.
  - exact (proj1 (Hsub [JObj listing_p2] eq_refl)).
  - exact (Htot eq_refl eq_refl).
Defined.

(** ** Lookups (C9) *)

(** Every lookup of the module is [find_first] over the items of a
    sequence; what varies is the test. *)
Lemma first_match_of_find_first {K : Type}
  (lookup : RealEstateDataManager -> K -> result value)
  (all : RealEstateDataManager -> value)
  (shape : dict -> Prop) (matches : K -> dict -> bool)
  (cond : K -> value -> result bool) :
  (forall self key,
      lookup self key
      = (items <- py_iter (all self) ;; find_first (cond key) items)) ->
  (forall key d, shape d -> cond key (JObj d) = Ok (matches key d)) ->
  first_match_lookup lookup all shape matches.
Proof.
  intros Hlookup Hcond self key.
  assert (Hfirst : forall pre r post,
             all self = JArr (map JObj (pre ++ r :: post)) ->
             Forall shape (pre ++ r :: post) ->
             matches key r = true ->
             (forall d, In d pre -> matches key d = false) ->
             lookup self key = Ok (JObj r)).
  { intros pre r post Hall Hshape Hr Hpre.
    rewrite Hlookup, Hall. simpl. rewrite map_app. simpl.
    apply Forall_app in Hshape. destruct Hshape as [Hs1 Hs2].
    apply find_first_hit.
    - intros x Hx. apply in_map_iff in Hx. destruct Hx as [d [<- Hd]].
      rewrite Hcond, (Hpre d Hd); [reflexivity|].
      rewrite Forall_forall in Hs1. now apply Hs1.
    - rewrite Hcond, Hr; [reflexivity|]. now inversion Hs2. }
  split; [|split].
  - intros pre r post Hall Hshape Hr Hothers.
    apply (Hfirst pre r post Hall Hshape Hr).
    intros d Hd. apply Hothers. apply in_or_app. now left.
  - intros rs Hall Hshape Hnone.
    rewrite Hlookup, Hall. simpl.
    apply find_first_none.
    intros x Hx. apply in_map_iff in Hx. destruct Hx as [d [<- Hd]].
    rewrite Hcond, (Hnone d Hd); [reflexivity|].
    rewrite Forall_forall in Hshape. now apply Hshape.
  - exact Hfirst.
Qed.

Lemma get_property_by_id_first_match :
  first_match_lookup get_property_by_id get_all_properties any_record has_id.
Proof.
  apply (first_match_of_find_first _ _ _ _
           (fun key prop => i <- py_get prop "id" JNull ;; Ok (py_eq i key)));
    reflexivity.
Qed.

Lemma get_agent_by_id_first_match :
  first_match_lookup get_agent_by_id get_all_agents any_record has_id.
Proof.
  apply (first_match_of_find_first _ _ _ _
           (fun key agent => i <- py_get agent "id" JNull ;; Ok (py_eq i key)));
    reflexivity.
Qed.

Lemma get_client_by_id_first_match :
  first_match_lookup get_client_by_id get_all_clients any_record has_id.
Proof.
  apply (first_match_of_find_first _ _ _ _
           (fun key client => i <- py_get client "id" JNull ;; Ok (py_eq i key)));
    reflexivity.
Qed.

Lemma get_area_info_first_match :
  first_match_lookup (fun self name => get_area_info self (JStr name))
    get_all_areas name_is_string has_name.
Proof.
  apply (first_match_of_find_first _ _ _ _
           (fun key area =>
              n <- py_get area "name" (JStr "") ;;
              ln <- py_lower n ;;
              la <- py_lower (JStr key) ;;
              Ok (String.eqb ln la))).
  - reflexivity.
  - intros key d [n Hn]. unfold has_name. simpl. now rewrite Hn.
Qed.

(** C9.  [get_property_by_id], [get_agent_by_id] and [get_client_by_id],
    matching on the [id] field, and [get_area_info], matching on the
    lower-cased [name] of area records whose name is a string, are
    first-match lookups: the one matching record when there is exactly
    one, [None] when there is none, the first in document order when there
    are several. *)
Theorem lookups_return_first_match :
  first_match_lookup get_property_by_id get_all_properties any_record has_id /\
  first_match_lookup get_agent_by_id get_all_agents any_record has_id /\
  first_match_lookup get_client_by_id get_all_clients any_record has_id /\
  first_match_lookup (fun self name => get_area_info self (JStr name))
    get_all_areas name_is_string has_name.
Proof.
  repeat split;
    first [ apply get_property_by_id_first_match
          | apply get_agent_by_id_first_match
          | apply get_client_by_id_first_match
          | apply get_area_info_first_match ].
Qed.

Lemma any_records (rs : list dict) : Forall any_record rs.
Proof. apply Forall_forall. intros d _. exact I. Qed.

Lemma lookups_return_first_match_witness :
  get_property_by_id sample (JStr "p2") = Ok (JObj listing_p2) /\
  get_property_by_id sample (JStr "p9") = Ok JNull /\
  get_agent_by_id sample (JStr "a1") = Ok (JObj agent_a1) /\
  get_area_info sample (JStr "uptown") = Ok (JObj area_uptown).
Proof.
  destruct lookups_return_first_match as [Hprop [Hagent [_ Harea]]].
  split; [|split; [|split]].
  - apply (proj1 (Hprop sample (JStr "p2")) [listing_p1] listing_p2 [listing_p3]).
    + reflexivity.
    + apply any_records.
    + reflexivity.
    + intros d [<-|[<-|[]]]; reflexivity.
  - apply (proj1 (proj2 (Hprop sample (JStr "p9")))
             [listing_p1; listing_p2; listing_p3]).
    + reflexivity.
    + apply any_records.
    + intros d [<-|[<-|[<-|[]]]]; reflexivity.
  - apply (proj2 (proj2 (Hagent sample (JStr "a1")))
             [agent_a2] agent_a1 [agent_a1_again]).
    + reflexivity.
    + apply any_records.
    + reflexivity.
    + intros d [<-|[]]; reflexivity.
  - apply (proj2 (proj2 (Harea sample "uptown"))
             [area_downtown] area_uptown [area_uptown_again]).
    + reflexivity.
    + repeat constructor; eexists; reflexivity.
    + reflexivity.
    + intros d [<-|[]]; reflexivity.
Defined.

(** ** Clients that are not buyers (C8) *)

Lemma not_buyer (c : dict) :
  dict_lookup "type" c <> Some (JStr "Buyer") ->
  py_eq (dict_get c "type" JNull) (JStr "Buyer") = false.
Proof.
  intros H. unfold dict_get.
  destruct (dict_lookup "type" c) as [v|]; [|reflexivity].
  destruct (py_eq v (JStr "Buyer")) eqn:E; [|reflexivity].
  apply py_eq_str in E. congruence.
Qed.

(** C8.  For every manager whose clients are a sequence of records and
    every client id: when no client has that id, and when the first client
    with that id has no [type] or a [type] other than ["Buyer"],
    [match_clients_to_properties] returns the empty list, whatever the
    client's preferences are. *)
Theorem non_buyers_match_nothing
  (self : RealEstateDataManager) (client_id : value) :
  (forall rs,
      get_all_clients self = JArr (map JObj rs) ->
      (forall d, In d rs -> has_id client_id d = false) ->
      match_clients_to_properties self client_id = Ok [])
  /\
  (forall pre c post,
      get_all_clients self = JArr (map JObj (pre ++ c :: post)) ->
      (forall d, In d pre -> has_id client_id d = false) ->
      has_id client_id c = true ->
      dict_lookup "type" c <> Some (JStr "Buyer") ->
      match_clients_to_properties self client_id = Ok []).
Proof.
  destruct (get_client_by_id_first_match self client_id) as [_ [Hnone Hfirst]].
  split.
  - intros rs Hall Hno. unfold match_clients_to_properties.
    now rewrite (Hnone rs Hall (any_records rs) Hno).
  - intros pre c post Hall Hpre Hc Hty. unfold match_clients_to_properties.
    rewrite (Hfirst pre c post Hall (any_records _) Hc Hpre). simpl.
    destruct c as [|kv c']; [reflexivity|]. simpl.
    now rewrite (not_buyer _ Hty).
Qed.

Lemma non_buyers_match_nothing_witness :
  match_clients_to_properties sample (JStr "c9") = Ok [] /\
  match_clients_to_properties sample (JStr "c2") = Ok [] /\
  match_clients_to_properties sample (JStr "c3") = Ok [].
Proof.
  split; [|split].
  - apply (proj1 (non_buyers_match_nothing sample (JStr "c9"))
             [client_buyer; client_seller; client_untyped]).
    + reflexivity.
    + intros d [<-|[<-|[<-|[]]]]; reflexivity.
  - apply (proj2 (non_buyers_match_nothing sample (JStr "c2"))
             [client_buyer] client_seller [client_untyped]).
    + reflexivity.
    + intros d [<-|[]]; reflexivity.
    + reflexivity.
    + discriminate.
  - apply (proj2 (non_buyers_match_nothing sample (JStr "c3"))
             [client_buyer; client_seller] client_untyped []).
    + reflexivity.
    + intros d [<-|[<-|[]]]; reflexivity.
    + reflexivity.
    + discriminate.
Defined.

(** ** Schools (C6) *)

(** C6.  The outcome of [get_schools_by_area] is the same for any two area
    arguments; and for every manager whose [schools] mapping holds a
    sequence (or nothing) under each of the four school types, it is the
    concatenation of the elementary, middle, high and private schools, in
    that order. *)
Theorem schools_ignore_area :
  (forall self area1 area2,
      get_schools_by_area self area1 = get_schools_by_area self area2)
  /\
  (forall self schools_data elementary middle high private area,
      dict_get (amenities self) "schools" (JObj []) = JObj schools_data ->
      dict_get schools_data "elementary_schools" (JArr []) = JArr elementary ->
      dict_get schools_data "middle_schools" (JArr []) = JArr middle ->
      dict_get schools_data "high_schools" (JArr []) = JArr high ->
      dict_get schools_data "private_schools" (JArr []) = JArr private ->
      get_schools_by_area self area
      = Ok (elementary ++ middle ++ high ++ private)).
Proof.
  split.
  - reflexivity.
  - intros self sd e m h p area Hsd He Hm Hh Hp.
    unfold get_schools_by_area. rewrite Hsd. simpl.
    rewrite He, Hm, Hh, Hp. simpl.
    now rewrite <- !app_assoc.
Qed.

Lemma schools_ignore_area_witness :
  get_schools_by_area sample (JStr "Downtown")
  = Ok ([school "E1"; school "E2"] ++ [] ++ [school "H1"] ++ [school "P1"]).
Proof.
  apply (proj2 schools_ignore_area sample
           [("high_schools", JArr [school "H1"]);
            ("elementary_schools", JArr [school "E1"; school "E2"]);
            ("private_schools", JArr [school "P1"])]);
    reflexivity.
Defined.

(** ** Amenities by type (C10) *)

(** C10.  For every manager and every amenity type with no entry in the
    amenities document, [get_amenities_by_type] returns the empty dict,
    which is not the empty list; for a type whose entry is a list it
    returns that list. *)
Theorem amenities_by_type_default_is_dict
  (self : RealEstateDataManager) (amenity_type : string) :
  (dict_lookup amenity_type (amenities self) = None ->
   get_amenities_by_type self amenity_type = JObj [] /\
   get_amenities_by_type self amenity_type <> JArr [])
  /\
  (forall l,
      dict_lookup amenity_type (amenities self) = Some (JArr l) ->
      get_amenities_by_type self amenity_type = JArr l).
Proof.
  unfold get_amenities_by_type, dict_get. split.
  - intros ->. split; [reflexivity|discriminate].
  - intros l ->. reflexivity.
Qed.

Lemma amenities_by_type_default_is_dict_witness :
  get_amenities_by_type sample "libraries" = JObj [] /\
  get_amenities_by_type sample "healthcare"
  = JArr [JObj [("name", JStr "Clinic")]].
Proof.
  split.
  - apply (proj1 (amenities_by_type_default_is_dict sample "libraries")).
    reflexivity.
  - apply (proj2 (amenities_by_type_default_is_dict sample "healthcare")).
    reflexivity.
Defined.

(** ** Market trends without sales (C7) *)

Lemma bind_no_zero_division {A B : Type} (r : result A) (k : A -> result B) :
  no_zero_division r ->
  (forall a, r = Ok a -> no_zero_division (k a)) ->
  no_zero_division (bind r k).
Proof.
  unfold no_zero_division. destruct r as [a|e]; simpl; intros Hr Hk.
  - now apply Hk.
  - intros E. apply Hr. injection E as ->. reflexivity.
Qed.

Lemma Ok_no_zero_division {A : Type} (a : A) : no_zero_division (Ok a).
Proof. discriminate. Qed.

Lemma py_get_no_zero_division (v : value) (k : string) (default : value) :
  no_zero_division (py_get v k default).
Proof. destruct v; discriminate. Qed.

Lemma py_lower_no_zero_division (v : value) : no_zero_division (py_lower v).
Proof. destruct v; discriminate. Qed.

Lemma py_iter_no_zero_division (v : value) : no_zero_division (py_iter v).
Proof. destruct v; discriminate. Qed.

Lemma py_len_no_zero_division (v : value) : no_zero_division (py_len v).
Proof. destruct v; discriminate. Qed.

Lemma py_add_no_zero_division (a b : value) : no_zero_division (py_add a b).
Proof. unfold py_add. destruct (as_num a), (as_num b); discriminate. Qed.

(** The only division: it is by a count, and fails on the count 0 alone. *)
Lemma py_div_no_zero_division (a : value) (n : nat) :
  n <> O -> no_zero_division (py_div a n).
Proof.
  intros Hn. unfold py_div. destruct (as_num a); [|discriminate].
  destruct n; [contradiction|discriminate].
Qed.

Create HintDb nzd.

#[local] Hint Resolve Ok_no_zero_division py_get_no_zero_division
  py_lower_no_zero_division py_iter_no_zero_division py_len_no_zero_division
  py_add_no_zero_division py_div_no_zero_division : nzd.

Ltac nzd :=
  repeat (apply bind_no_zero_division; [solve [auto with nzd]|intros ? ?]);
  auto with nzd.

Lemma select_no_zero_division (cond : value -> result bool) (items : list value) :
  (forall x, no_zero_division (cond x)) ->
  no_zero_division (select cond items).
Proof.
  intros Hc. induction items as [|x rest IH]; simpl.
  - discriminate.
  - apply bind_no_zero_division; [apply Hc|intros b _].
    apply bind_no_zero_division; [exact IH|intros kept _]. discriminate.
Qed.

Lemma in_area_no_zero_division (items area : value) :
  no_zero_division (in_area items area).
Proof.
  unfold in_area. apply bind_no_zero_division; [auto with nzd|intros xs _].
  apply select_no_zero_division. intros x. nzd.
Qed.

Lemma sum_field_no_zero_division (field : string) (sales : list value) :
  forall acc, no_zero_division (sum_field field sales acc).
Proof.
  induction sales as [|sale rest IH]; simpl; intros acc.
  - discriminate.
  - nzd.
Qed.

Lemma average_no_zero_division (field : string) (sales : value) (n : nat) :
  n <> O -> no_zero_division (average field sales n).
Proof.
  intros Hn. unfold average.
  apply bind_no_zero_division; [auto with nzd|intros xs _].
  apply bind_no_zero_division; [apply sum_field_no_zero_division|intros s _].
  now apply py_div_no_zero_division.
Qed.

(** A sequence that tests true has a positive length. *)
Lemma truthy_len (v : value) (n : nat) :
  truthy v = true -> py_len v = Ok n -> n <> O.
Proof.
  destruct v as [| | |s|l|d]; simpl; try discriminate; intros Ht Hn;
    injection Hn as <-.
  - destruct s; [discriminate|simpl; discriminate].
  - destruct l; [discriminate|simpl; discriminate].
  - destruct d; [discriminate|simpl; discriminate].
Qed.

(** C7.  For every manager and every area argument: when the argument is
    [None] or empty and there are no recent sales, and when the argument
    is an area and there are no sales in that area,
    [calculate_market_trends] returns the empty dict; and no call of it,
    on any manager and any argument, ends in a [ZeroDivisionError]: the
    averages divide by a count that has been tested to be positive. *)
Theorem no_sales_no_trends :
  (forall self area,
      truthy area = false ->
      get_recent_sales self = JArr [] ->
      calculate_market_trends self area = Ok (JObj []))
  /\
  (forall self area,
      truthy area = true ->
      get_sales_by_area self area = Ok [] ->
      calculate_market_trends self area = Ok (JObj []))
  /\
  (forall self area, no_zero_division (calculate_market_trends self area)).
Proof.
  split; [|split].
  - intros self area Ha Hs. unfold calculate_market_trends.
    now rewrite Ha, Hs.
  - intros self area Ha Hs. unfold calculate_market_trends.
    now rewrite Ha, Hs.
  - intros self area. unfold calculate_market_trends.
    apply bind_no_zero_division.
    + destruct (truthy area); [|discriminate].
      apply bind_no_zero_division; [apply in_area_no_zero_division|].
      discriminate.
    + intros sales _. destruct (truthy sales) eqn:Ht; simpl; [|discriminate].
      apply bind_no_zero_division; [auto with nzd|intros n Hn].
      pose proof (truthy_len sales n Ht Hn) as Hpos.
      repeat (apply bind_no_zero_division;
              [now apply average_no_zero_division|intros ? _]).
      discriminate.
Qed.

Lemma no_sales_no_trends_witness :
  calculate_market_trends empty_manager JNull = Ok (JObj []) /\
  calculate_market_trends sample (JStr "Nowhere") = Ok (JObj []).
Proof.
  split.
  - apply (proj1 no_sales_no_trends empty_manager JNull); reflexivity.
  - apply (proj1 (proj2 no_sales_no_trends) sample (JStr "Nowhere"));
      reflexivity.
Defined.

(** ** Insights for a listing without an area (C1) *)

(** Whenever the listing that [get_property_insights] finds has no [area]
    and the areas document lists at least one area, the call raises. *)
Lemma insights_without_area_raise
  (self : RealEstateDataManager) (property_id : value)
  (prop : dict) (first_area : value) (more_areas : list value) :
  get_property_by_id self property_id = Ok (JObj prop) ->
  prop <> [] ->
  dict_lookup "area" prop = None ->
  get_all_areas self = JArr (first_area :: more_areas) ->
  exists e, get_property_insights self property_id = Raise e.
Proof.
  intros Hp Hne Harea Hall.
  assert (Ht : truthy (JObj prop) = true)
    by (destruct prop; [contradiction|reflexivity]).
  unfold get_property_insights. rewrite Hp. cbn [bind]. rewrite Ht.
  cbn [negb py_get bind].
  assert (Ha : dict_get prop "area" JNull = JNull)
    by (unfold dict_get; now rewrite Harea).
  rewrite !Ha.
  destruct (get_agent_by_id self _) as [agent|e]; simpl; [|eauto].
  unfold get_area_info. rewrite Hall. simpl.
  destruct (py_get first_area "name" (JStr "")) as [n|e]; simpl; [|eauto].
  destruct (py_lower n) as [ln|e]; simpl; eauto.
Qed.

(** C1, which the code breaks.  [listing_p3] has no [area]; the sample
    data lists areas; [get_property_insights] on its id ends in an
    [AttributeError], raised by [area_name.lower()] in [get_area_info]
    with [area_name = None]. *)
Theorem insights_of_listing_without_area_raise :
  dict_lookup "area" listing_p3 = None /\
  get_property_by_id sample (JStr "p3") = Ok (JObj listing_p3) /\
  get_property_insights sample (JStr "p3") = Raise AttributeError.
Proof. repeat split. Qed.

(** * Further properties of the queries *)

(** ** More on the comprehension *)


Lemma select_kept_accepted (cond : value -> result bool)
  (items kept : list value) (x : value) :
  select cond items = Ok kept -> In x kept -> In x items /\ cond x = Ok true.
Proof.
  revert kept. induction items as [|y rest IH]; simpl; intros kept H Hin.
  - injection H as <-. contradiction.
  - destruct (cond y) as [b|e] eqn:Hy; simpl in H; [|discriminate].
    destruct (select cond rest) as [k|e]; simpl in H; [|discriminate].
    injection H as <-. specialize (IH k eq_refl).
    destruct b.
    + destruct Hin as [<-|Hin]; [split; [now left|exact Hy]|].
      destruct (IH Hin) as [H1 H2]. split; [now right|exact H2].
    + destruct (IH Hin) as [H1 H2]. split; [now right|exact H2].
Qed.

(** On records, a test that is a pure function of the record makes the
    comprehension a [filter]. *)
Lemma select_records (cond : value -> result bool) (p : dict -> bool)
  (rs : list dict) :
  (forall d, In d rs -> cond (JObj d) = Ok (p d)) ->
  select cond (map JObj rs) = Ok (map JObj (filter p rs)).
Proof.
  induction rs as [|d rs IH]; simpl; intros H.
  - reflexivity.
  - rewrite (H d (or_introl eq_refl)), IH by (intros; apply H; now right).
    simpl. now destruct (p d).
Qed.

(** Two comprehensions over the same items: when the first test accepts
    only what the second accepts, the first result is a subsequence of the
    second. *)
Lemma select_mono (c1 c2 : value -> result bool) (items r1 r2 : list value) :
  select c1 items = Ok r1 ->
  select c2 items = Ok r2 ->
  (forall x, In x items -> c1 x = Ok true -> c2 x = Ok true) ->
  Subseq r1 r2.
Proof.
  revert r1 r2. induction items as [|x rest IH]; simpl; intros r1 r2 H1 H2 Himp.
  - injection H1 as <-. injection H2 as <-. constructor.
  - destruct (c1 x) as [b1|e] eqn:E1; simpl in H1; [|discriminate].
    destruct (select c1 rest) as [k1|e]; simpl in H1; [|discriminate].
    destruct (c2 x) as [b2|e] eqn:E2; simpl in H2; [|discriminate].
    destruct (select c2 rest) as [k2|e]; simpl in H2; [|discriminate].
    injection H1 as <-. injection H2 as <-.
    assert (IH' : Subseq k1 k2)
      by (apply IH; auto; intros y Hy; apply Himp; now right).
    destruct b1.
    + rewrite (Himp x (or_introl eq_refl) E1) in E2.
      injection E2 as <-. now constructor.
    + destruct b2; [now constructor|exact IH'].
Qed.

(** ** Selections are subsequences *)

(** X1.  Each query that selects records from a sequence returns a subsequence
    of it: the records it returns are records of the document, in document
    order, none twice over. *)
Theorem selections_are_subsequences (self : RealEstateDataManager) :
  (forall all query res,
      get_all_properties self = JArr all ->
      search_properties self query = Ok res -> Subseq res all) /\
  (forall all agent_id res,
      get_all_properties self = JArr all ->
      get_properties_by_agent self agent_id = Ok res -> Subseq res all) /\
  (forall all area res,
      get_all_properties self = JArr all ->
      get_properties_by_area self area = Ok res -> Subseq res all) /\
  (forall all query res,
      get_all_agents self = JArr all ->
      search_agents self query = Ok res -> Subseq res all) /\
  (forall all agent_id res,
      get_all_clients self = JArr all ->
      get_clients_by_agent self agent_id = Ok res -> Subseq res all) /\
  (forall all area res,
      get_recent_sales self = JArr all ->
      get_sales_by_area self area = Ok res -> Subseq res all) /\
  (forall all agent_id res,
      get_recent_sales self = JArr all ->
      get_sales_by_agent self agent_id = Ok res -> Subseq res all).
Proof.
  unfold search_properties, get_properties_by_agent, get_properties_by_area,
    search_agents, get_clients_by_agent, get_sales_by_area, get_sales_by_agent,
    in_area.
  repeat split; intros all arg res Hall H; rewrite Hall in H;
    try (destruct (py_lower arg) as [q|e]; [|discriminate]);
    simpl in H; now apply select_subseq in H.
Qed.

Lemma selections_are_subsequences_witness :
  Subseq [JObj listing_p1; JObj listing_p3]
    (map JObj [listing_p1; listing_p2; listing_p3]).
Proof.
  apply (proj1 (proj2 (selections_are_subsequences sample))
           (map JObj [listing_p1; listing_p2; listing_p3]) (JStr "a1"));
    reflexivity.
Defined.

(** ** Queries by agent *)

(** X2.  On a sequence of records, the three queries by agent return exactly
    the records whose [agent_id] equals the argument, in document order.
    A record without [agent_id] counts as having [None]. *)
Theorem by_agent_is_filter (self : RealEstateDataManager) (agent_id : value)
  (rs : list dict) :
  (get_all_properties self = JArr (map JObj rs) ->
   get_properties_by_agent self agent_id
   = Ok (map JObj (filter (has_agent agent_id) rs))) /\
  (get_all_clients self = JArr (map JObj rs) ->
   get_clients_by_agent self agent_id
   = Ok (map JObj (filter (has_agent agent_id) rs))) /\
  (get_recent_sales self = JArr (map JObj rs) ->
   get_sales_by_agent self agent_id
   = Ok (map JObj (filter (has_agent agent_id) rs))).
Proof.
  unfold get_properties_by_agent, get_clients_by_agent, get_sales_by_agent.
  repeat split; intros ->; simpl; apply select_records; reflexivity.
Qed.

Lemma by_agent_is_filter_witness :
  get_properties_by_agent sample (JStr "a1")
  = Ok (map JObj (filter (has_agent (JStr "a1"))
                    [listing_p1; listing_p2; listing_p3])).
Proof.
  apply (proj1 (by_agent_is_filter sample (JStr "a1")
                  [listing_p1; listing_p2; listing_p3])).
  reflexivity.
Defined.

(** ** Queries by area *)

Lemma str_field_area (d : dict) :
  area_is_string d = true ->
  dict_get d "area" (JStr "") = JStr (str_field d "area").
Proof.
  unfold area_is_string, field_is, str_field, dict_get.
  destruct (dict_lookup "area" d) as [[]|]; try discriminate; reflexivity.
Qed.

Lemma in_area_records (items : value) (rs : list dict) (area : string) :
  items = JArr (map JObj rs) ->
  forallb area_is_string rs = true ->
  in_area items (JStr area)
  = Ok (map JObj (filter (in_area_named area) rs)).
Proof.
  intros -> Hrs. unfold in_area. simpl. apply select_records.
  intros d Hd. rewrite forallb_forall in Hrs. simpl.
  rewrite (str_field_area d (Hrs d Hd)). reflexivity.
Qed.

(** X3.  On records whose [area], when present, is a string, the two queries by
    area return exactly the records whose area equals the argument after
    lower-casing both, in document order.  A record without [area] counts
    as having the empty area, so the empty name selects it. *)
Theorem by_area_is_filter (self : RealEstateDataManager) (area : string)
  (rs : list dict) :
  forallb area_is_string rs = true ->
  (get_all_properties self = JArr (map JObj rs) ->
   get_properties_by_area self (JStr area)
   = Ok (map JObj (filter (in_area_named area) rs))) /\
  (get_recent_sales self = JArr (map JObj rs) ->
   get_sales_by_area self (JStr area)
   = Ok (map JObj (filter (in_area_named area) rs))) /\
  (forall d, In d rs -> dict_lookup "area" d = None ->
             in_area_named "" d = true).
Proof.
  intros Hrs. unfold get_properties_by_area, get_sales_by_area.
  split; [|split].
  - intros H. now apply in_area_records.
  - intros H. now apply in_area_records.
  - intros d _ Hd. unfold in_area_named, str_field, dict_get. now rewrite Hd.
Qed.

Lemma by_area_is_filter_witness :
  get_properties_by_area sample (JStr "DOWNTOWN") = Ok [JObj listing_p1] /\
  get_properties_by_area sample (JStr "") = Ok [JObj listing_p3].
Proof.
  split.
  - apply (proj1 (by_area_is_filter sample "DOWNTOWN"
                    [listing_p1; listing_p2; listing_p3] eq_refl)).
    reflexivity.
  - apply (proj1 (by_area_is_filter sample ""
                    [listing_p1; listing_p2; listing_p3] eq_refl)).
    reflexivity.
Defined.

(** ** What an accepted listing satisfies *)

Lemma py_get_Ok_inv (v : value) (k : string) (default w : value) :
  py_get v k default = Ok w -> exists d, v = JObj d /\ w = dict_get d k default.
Proof.
  destruct v; simpl; try discriminate. intros H. injection H as <-. eauto.
Qed.

Lemma py_lt_num_r (v : value) (m : number) (b : bool) :
  py_lt v (JNum m) = Ok b -> exists n, as_num v = Some n /\ b = num_lt n m.
Proof.
  destruct v; simpl; try discriminate; intros H; injection H as <-; eauto.
Qed.

Lemma py_lt_num_l (v : value) (m : number) (b : bool) :
  py_lt (JNum m) v = Ok b -> exists n, as_num v = Some n /\ b = num_lt m n.
Proof.
  simpl. destruct (as_num v) as [n|]; [|discriminate].
  intros H. injection H as <-. eauto.
Qed.

Lemma below_passed (prop : value) (field : string) (q : Q) :
  ~ q == 0 ->
  below prop field (JNum (Fin q)) = Ok false ->
  exists d, prop = JObj d /\ not_below (dict_get d field (int 0)) q.
Proof.
  intros Hq. unfold below. rewrite (truthy_nonzero q Hq).
  destruct (py_get prop field (int 0)) as [v|e] eqn:Hv; cbn [bind]; [|discriminate].
  intros H. apply py_get_Ok_inv in Hv. destruct Hv as [d [-> ->]].
  apply py_lt_num_r in H. destruct H as [n [Hn Hlt]].
  exists d. split; [reflexivity|]. exists n. now split.
Qed.

Lemma above_passed (prop : value) (field : string) (q : Q) :
  ~ q == 0 ->
  above prop field (JNum (Fin q)) = Ok false ->
  exists d, prop = JObj d /\ not_above (dict_get d field (JNum PInf)) q.
Proof.
  intros Hq. unfold above, py_gt. rewrite (truthy_nonzero q Hq).
  destruct (py_get prop field (JNum PInf)) as [v|e] eqn:Hv; cbn [bind]; [|discriminate].
  intros H. apply py_get_Ok_inv in Hv. destruct Hv as [d [-> ->]].
  apply py_lt_num_l in H. destruct H as [n [Hn Hlt]].
  exists d. split; [reflexivity|]. exists n. now split.
Qed.

Lemma filter_properties_accepted (self : RealEstateDataManager)
  (filters : PropertyFilter.t) (res : list value) (x : value) :
  filter_properties self filters = Ok res -> In x res ->
  _matches_filter x filters = Ok true.
Proof.
  unfold filter_properties. intros H Hx.
  destruct (py_iter (get_all_properties self)) as [props|e]; [|discriminate].
  simpl in H. now destruct (select_kept_accepted _ _ _ _ H Hx).
Qed.

(** Finite values: the two predicates are the order of the rationals. *)
Lemma not_below_finite (x q : Q) : not_below (JNum (Fin x)) q -> q <= x.
Proof.
  intros [n [Hn Hlt]]. injection Hn as <-. simpl in Hlt.
  apply negb_false_iff in Hlt. now apply Qle_bool_iff.
Qed.

Lemma not_above_finite (x q : Q) : not_above (JNum (Fin x)) q -> x <= q.
Proof.
  intros [n [Hn Hlt]]. injection Hn as <-. simpl in Hlt.
  apply negb_false_iff in Hlt. now apply Qle_bool_iff.
Qed.

Lemma dict_get_present (d : dict) (k : string) (default v : value) :
  dict_lookup k d = Some v -> dict_get d k default = v.
Proof. unfold dict_get. now intros ->. Qed.

(** X4.  Every record that [filter_properties] returns respects the numeric
    bounds that the filter tests.  For each of [price], [bedrooms],
    [bathrooms], [square_feet]: under a finite lower bound other than 0
    the record's value, read as 0 when missing, is a number not below the
    bound; under a finite upper bound other than 0 the record's value,
    read as +infinity when missing, is a number not above it.  A finite
    value [x] then satisfies [q <= x], respectively [x <= q]. *)
Theorem filtered_within_bounds
  (self : RealEstateDataManager) (filters : PropertyFilter.t)
  (res : list value) (x : value)
  (field : string) (lo hi : PropertyFilter.t -> value) :
  In (field, lo, hi) bounded_fields ->
  filter_properties self filters = Ok res ->
  In x res ->
  (forall q, lo filters = JNum (Fin q) -> ~ q == 0 ->
     exists d, x = JObj d /\
               not_below (dict_get d field (int 0)) q /\
               forall v, dict_lookup field d = Some (JNum (Fin v)) -> q <= v)
  /\
  (forall q, hi filters = JNum (Fin q) -> ~ q == 0 ->
     exists d, x = JObj d /\
               not_above (dict_get d field (JNum PInf)) q /\
               forall v, dict_lookup field d = Some (JNum (Fin v)) -> v <= q).
Proof.
  intros Hin Hres Hx.
  pose proof (filter_properties_accepted self filters res x Hres Hx) as Hacc.
  apply matches_filter_accepts in Hacc.
  destruct Hacc as (C1 & C2 & C3 & C4 & C5 & C6 & C7 & C8 & C9 & C10).
  simpl in Hin.
  destruct Hin as [E|[E|[E|[E|[]]]]]; injection E as <- <- <-;
    (split; intros q Hq Hnz; rewrite Hq in *;
     [ match goal with
       | C : below x _ (JNum (Fin q)) = Ok false |- _ =>
           destruct (below_passed _ _ _ Hnz C) as [d [-> Hb]]
       end;
       exists d; split; [reflexivity|split; [exact Hb|]];
       intros v Hv; rewrite (dict_get_present _ _ _ _ Hv) in Hb;
       now apply not_below_finite
     | match goal with
       | C : above x _ (JNum (Fin q)) = Ok false |- _ =>
           destruct (above_passed _ _ _ Hnz C) as [d [-> Hb]]
       end;
       exists d; split; [reflexivity|split; [exact Hb|]];
       intros v Hv; rewrite (dict_get_present _ _ _ _ Hv) in Hb;
       now apply not_above_finite ]).
Qed.

Lemma filtered_within_bounds_witness :
  exists d, JObj listing_p2 = JObj d /\
            not_below (dict_get d "price" (int 0)) (inject_Z 600000) /\
            forall v, dict_lookup "price" d = Some (JNum (Fin v)) ->
                      inject_Z 600000 <= v.
Proof.
  apply (proj1 (filtered_within_bounds sample (only_min_price (int 600000))
                  [JObj listing_p2] (JObj listing_p2) "price"
                  PropertyFilter.min_price PropertyFilter.max_price
                  (or_introl eq_refl) eq_refl (or_introl eq_refl))
           (inject_Z 600000) eq_refl).
  discriminate.
Defined.

Lemma matches_filter_accepts_features (prop : value) (filters : PropertyFilter.t) :
  _matches_filter prop filters = Ok true ->
  truthy (PropertyFilter.features filters) = true ->
  exists prop_features required,
    py_get prop "features" (JArr []) = Ok prop_features /\
    py_iter (PropertyFilter.features filters) = Ok required /\
    all_features prop_features required = Ok true.
Proof.
  unfold _matches_filter. intros H Ht.
  repeat (apply return_false_if_true in H; destruct H as [_ H]).
  rewrite Ht in H.
  destruct (py_get prop "features" (JArr [])) as [pf|e]; [|discriminate].
  destruct (py_iter (PropertyFilter.features filters)) as [rq|e]; [|discriminate].
  exists pf, rq. now repeat split.
Qed.

Lemma outside_passed (prop : value) (field : string) (names : list string) :
  names <> [] ->
  outside prop field (JArr (map JStr names)) = Ok false ->
  exists d s, prop = JObj d /\ dict_lookup field d = Some (JStr s) /\ In s names.
Proof.
  intros Hne. unfold outside.
  assert (Ht : truthy (JArr (map JStr names)) = true)
    by (destruct names; [contradiction|reflexivity]).
  rewrite Ht.
  destruct (py_get prop field JNull) as [v|e] eqn:Hv; cbn [bind]; [|discriminate].
  apply py_get_Ok_inv in Hv. destruct Hv as [d [-> ->]].
  simpl. intros H. injection H as H. apply negb_false_iff in H.
  apply existsb_exists in H. destruct H as [y [Hy Heq]].
  apply in_map_iff in Hy. destruct Hy as [s [<- Hs]].
  apply py_eq_str in Heq. exists d, s. split; [reflexivity|]. split; [|exact Hs].
  unfold dict_get in Heq.
  destruct (dict_lookup field d) as [w|]; [now rewrite Heq|discriminate].
Qed.

Lemma any_feature_found (required : value) (items : list value) :
  any_feature required items = Ok true ->
  exists r s, required = JStr r /\ In (JStr s) items /\
              contains (lower r) (lower s) = true.
Proof.
  induction items as [|f rest IH]; simpl; [discriminate|].
  destruct required as [| | |r| |]; simpl; try discriminate.
  destruct f as [| | |s| |]; simpl; try discriminate.
  destruct (contains (lower r) (lower s)) eqn:E.
  - intros _. exists r, s. repeat split; [now left|exact E].
  - intros H. destruct (IH H) as [r' [s' [Hr [Hin Hc]]]].
    exists r', s'. repeat split; [exact Hr|now right|exact Hc].
Qed.

Lemma all_features_found (prop_features : value) (required : list value) :
  all_features prop_features required = Ok true ->
  forall req, In req required ->
    exists items r s,
      py_iter prop_features = Ok items /\ req = JStr r /\
      In (JStr s) items /\ contains (lower r) (lower s) = true.
Proof.
  induction required as [|rq rest IH]; simpl; intros H req Hin; [contradiction|].
  destruct (py_iter prop_features) as [items|e] eqn:Hit; [|discriminate].
  cbn [bind] in H.
  destruct (any_feature rq items) as [[|]|e] eqn:Hany; try discriminate.
  cbn [bind] in H. destruct Hin as [<-|Hin].
  - destruct (any_feature_found _ _ Hany) as [r [s [Hr [Hs Hc]]]].
    exists items, r, s. now repeat split.
  - now apply IH.
Qed.

(** X5.  Every record that [filter_properties] returns passes the membership
    tests of the filter.  Under a non-empty list of area names its [area]
    is one of the names, letter for letter; under a non-empty list of
    property types its [property_type] is one of them; under a non-empty
    list of required features, each required feature is, after
    lower-casing, a substring of one of the record's features. *)
Theorem filtered_within_lists
  (self : RealEstateDataManager) (filters : PropertyFilter.t)
  (res : list value) (x : value) :
  filter_properties self filters = Ok res ->
  In x res ->
  (forall names, PropertyFilter.areas filters = JArr (map JStr names) ->
     names <> [] ->
     exists d s, x = JObj d /\ dict_lookup "area" d = Some (JStr s) /\ In s names)
  /\
  (forall names, PropertyFilter.property_types filters = JArr (map JStr names) ->
     names <> [] ->
     exists d s, x = JObj d /\
                 dict_lookup "property_type" d = Some (JStr s) /\ In s names)
  /\
  (forall required, PropertyFilter.features filters = JArr required ->
     required <> [] ->
     exists d items,
       x = JObj d /\
       py_iter (dict_get d "features" (JArr [])) = Ok items /\
       forall req, In req required ->
         exists r s, req = JStr r /\ In (JStr s) items /\
                     contains (lower r) (lower s) = true).
Proof.
  intros Hres Hx.
  pose proof (filter_properties_accepted self filters res x Hres Hx) as Hacc.
  pose proof (matches_filter_accepts _ _ Hacc)
    as (C1 & C2 & C3 & C4 & C5 & C6 & C7 & C8 & C9 & C10).
  split; [|split].
  - intros names Hn Hne. rewrite Hn in C7. now apply outside_passed.
  - intros names Hn Hne. rewrite Hn in C8. now apply outside_passed.
  - intros required Hf Hne.
    destruct (matches_filter_accepts_features _ _ Hacc) as [pf [rq [Hpf [Hrq Hall]]]].
    { rewrite Hf. destruct required; [contradiction|reflexivity]. }
    rewrite Hf in Hrq. injection Hrq as <-.
    apply py_get_Ok_inv in Hpf. destruct Hpf as [d [-> ->]].
    destruct required as [|r0 rest]; [contradiction|].
    destruct (all_features_found _ _ Hall r0 (or_introl eq_refl))
      as [items [_ [_ [Hit _]]]].
    exists d, items. repeat split; [exact Hit|].
    intros req Hreq.
    destruct (all_features_found _ _ Hall req Hreq) as [items' [r [s [Hit' H]]]].
    rewrite Hit in Hit'. injection Hit' as <-. now exists r, s.
Qed.

(** X6.  A filter on the one area name [area] selects, among the listings, only
    listings that the query by area selects for that name: the first
    compares names letter for letter, the second after lower-casing. *)
Theorem area_filter_within_area_query
  (self : RealEstateDataManager) (filters : PropertyFilter.t) (area : string)
  (res by_area : list value) :
  PropertyFilter.areas filters = JArr [JStr area] ->
  filter_properties self filters = Ok res ->
  get_properties_by_area self (JStr area) = Ok by_area ->
  Subseq res by_area.
Proof.
  unfold filter_properties, get_properties_by_area, in_area.
  intros Ha Hres Hby.
  destruct (py_iter (get_all_properties self)) as [props|e]; [|discriminate].
  cbn [bind] in Hres, Hby.
  apply (select_mono _ _ _ _ _ Hres Hby).
  intros x _ Hacc.
  pose proof (matches_filter_accepts _ _ Hacc)
    as (_ & _ & _ & _ & _ & _ & C7 & _).
  rewrite Ha in C7.
  destruct (outside_passed x "area" [area]) as [d [s [-> [Hs [<-|[]]]]]];
    [discriminate|exact C7|].
  simpl. rewrite (dict_get_present _ _ _ _ Hs). simpl.
  now rewrite String.eqb_refl.
Qed.

Lemma filtered_within_lists_witness :
  (exists d s, JObj listing_garage = JObj d /\
               dict_lookup "area" d = Some (JStr s) /\ In s ["Downtown"]) /\
  (exists d items,
      JObj listing_garage = JObj d /\
      py_iter (dict_get d "features" (JArr [])) = Ok items /\
      forall req, In req [JStr "garage"] ->
        exists r s, req = JStr r /\ In (JStr s) items /\
                    contains (lower r) (lower s) = true).
Proof.
  pose proof (filtered_within_lists garage_manager
                (filter_on (JArr [JStr "Downtown"]) JNull (JArr [JStr "garage"]))
                [JObj listing_garage] (JObj listing_garage)
                eq_refl (or_introl eq_refl)) as [Ha [_ Hf]].
  split.
  - apply (Ha ["Downtown"] eq_refl). discriminate.
  - apply (Hf [JStr "garage"] eq_refl). discriminate.
Defined.

Lemma area_filter_within_area_query_witness :
  Subseq [JObj listing_garage] [JObj listing_p1; JObj listing_garage].
Proof.
  apply (area_filter_within_area_query garage_manager
           (filter_on (JArr [JStr "Downtown"]) JNull (JArr [JStr "garage"]))
           "Downtown"); reflexivity.
Defined.

(** ** Matching a buyer *)

(** For a buyer, the match is the filter built from the preferences. *)
Lemma buyer_match_is_filter (self : RealEstateDataManager) (client_id : value)
  (c p b : dict) :
  get_client_by_id self client_id = Ok (JObj c) ->
  dict_lookup "type" c = Some (JStr "Buyer") ->
  dict_get c "preferences" (JObj []) = JObj p ->
  dict_get p "budget_range" (JObj []) = JObj b ->
  match_clients_to_properties self client_id
  = filter_properties self
      (preference_filter (dict_get b "min" JNull) (dict_get b "max" JNull)
         (dict_get p "desired_areas" JNull) (dict_get p "property_type" JNull)).
Proof.
  intros Hc Hty Hp Hb. unfold match_clients_to_properties.
  rewrite Hc. cbn [bind].
  assert (Ht : truthy (JObj c) = true)
    by (destruct c; [discriminate|reflexivity]).
  rewrite Ht. cbn [negb py_get bind].
  rewrite (dict_get_present _ _ _ _ Hty). cbn [py_eq negb].
  rewrite String.eqb_refl. cbn [negb].
  rewrite Hp. cbn [py_get bind]. rewrite Hb. reflexivity.
Qed.

(** X8.  A buyer none of whose four preferences is set (no budget bounds or
    bounds of 0, no desired areas or an empty list, no property type or an
    empty one) is matched with every listing. *)
Theorem buyer_without_preferences_matches_all
  (self : RealEstateDataManager) (client_id : value)
  (c p b : dict) (all : list value) :
  get_client_by_id self client_id = Ok (JObj c) ->
  dict_lookup "type" c = Some (JStr "Buyer") ->
  dict_get c "preferences" (JObj []) = JObj p ->
  dict_get p "budget_range" (JObj []) = JObj b ->
  truthy (dict_get b "min" JNull) = false ->
  truthy (dict_get b "max" JNull) = false ->
  truthy (dict_get p "desired_areas" JNull) = false ->
  truthy (dict_get p "property_type" JNull) = false ->
  get_all_properties self = JArr all ->
  match_clients_to_properties self client_id = Ok all.
Proof.
  intros Hc Hty Hp Hb Hlo Hhi Hd Hpt Hall.
  rewrite (buyer_match_is_filter self client_id c p b Hc Hty Hp Hb).
  unfold filter_properties. rewrite Hall. cbn [py_iter bind].
  apply select_all. intros x _.
  unfold _matches_filter, preference_filter, below, above, outside. simpl.
  now rewrite Hlo, Hhi, Hd, Hpt.
Qed.

Lemma buyer_without_preferences_matches_all_witness :
  match_clients_to_properties open_buyer_manager (JStr "c4")
  = Ok (map JObj [listing_p1; listing_garage]).
Proof.
  apply (buyer_without_preferences_matches_all open_buyer_manager (JStr "c4")
           client_open_buyer [] []); reflexivity.
Defined.

(** X9.  The listings matched with a buyer are listings of the document, in
    document order, and respect the budget: under a finite [min] other
    than 0 the price of each, read as 0 when missing, is not below it;
    under a finite [max] other than 0 the price of each, read as
    +infinity when missing, is not above it. *)
Theorem buyer_matches_within_budget
  (self : RealEstateDataManager) (client_id : value)
  (c p b : dict) (res : list value) :
  get_client_by_id self client_id = Ok (JObj c) ->
  dict_lookup "type" c = Some (JStr "Buyer") ->
  dict_get c "preferences" (JObj []) = JObj p ->
  dict_get p "budget_range" (JObj []) = JObj b ->
  match_clients_to_properties self client_id = Ok res ->
  (forall all, get_all_properties self = JArr all -> Subseq res all)
  /\
  (forall x q, In x res ->
     dict_lookup "min" b = Some (JNum (Fin q)) -> ~ q == 0 ->
     exists d, x = JObj d /\ not_below (dict_get d "price" (int 0)) q)
  /\
  (forall x q, In x res ->
     dict_lookup "max" b = Some (JNum (Fin q)) -> ~ q == 0 ->
     exists d, x = JObj d /\ not_above (dict_get d "price" (JNum PInf)) q).
Proof.
  intros Hc Hty Hp Hb Hres.
  rewrite (buyer_match_is_filter self client_id c p b Hc Hty Hp Hb) in Hres.
  split; [|split].
  - intros all Hall. unfold filter_properties in Hres. rewrite Hall in Hres.
    now apply select_subseq in Hres.
  - intros x q Hx Hq Hnz.
    pose proof (filter_properties_accepted _ _ _ _ Hres Hx) as Hacc.
    apply matches_filter_accepts in Hacc. destruct Hacc as (C1 & _).
    cbn [preference_filter PropertyFilter.min_price] in C1.
    rewrite (dict_get_present _ _ _ _ Hq) in C1.
    now apply below_passed.
  - intros x q Hx Hq Hnz.
    pose proof (filter_properties_accepted _ _ _ _ Hres Hx) as Hacc.
    apply matches_filter_accepts in Hacc. destruct Hacc as (_ & C2 & _).
    cbn [preference_filter PropertyFilter.max_price] in C2.
    rewrite (dict_get_present _ _ _ _ Hq) in C2.
    now apply above_passed.
Qed.

Lemma buyer_matches_within_budget_witness :
  exists d, JObj listing_p2 = JObj d /\
            not_below (dict_get d "price" (int 0)) (inject_Z 600000).
Proof.
  pose proof (buyer_matches_within_budget sample (JStr "c1") client_buyer
                [("budget_range", JObj [("min", int 600000); ("max", int 800000)])]
                [("min", int 600000); ("max", int 800000)]
                [JObj listing_p2] eq_refl eq_refl eq_refl eq_refl eq_refl)
    as [_ [Hmin _]].
  apply (Hmin (JObj listing_p2) (inject_Z 600000) (or_introl eq_refl) eq_refl).
  discriminate.
Defined.

(** ** Ids that match nothing *)

(** X10.  For an id that no agent record has, [get_agent_performance] and
    [get_agent_dashboard] return the empty dict; for an id that no listing
    has, so does [get_property_insights]. *)
Theorem unknown_ids_give_empty_dicts
  (self : RealEstateDataManager) (id : value) (rs : list dict) :
  (get_all_agents self = JArr (map JObj rs) ->
   (forall d, In d rs -> has_id id d = false) ->
   get_agent_performance self id = Ok (JObj []) /\
   get_agent_dashboard self id = Ok (JObj []))
  /\
  (get_all_properties self = JArr (map JObj rs) ->
   (forall d, In d rs -> has_id id d = false) ->
   get_property_insights self id = Ok (JObj [])).
Proof.
  split.
  - intros Hall Hno.
    destruct (get_agent_by_id_first_match self id) as [_ [Hnone _]].
    unfold get_agent_performance, get_agent_dashboard.
    rewrite (Hnone rs Hall (any_records rs) Hno). now split.
  - intros Hall Hno.
    destruct (get_property_by_id_first_match self id) as [_ [Hnone _]].
    unfold get_property_insights.
    now rewrite (Hnone rs Hall (any_records rs) Hno).
Qed.

Lemma unknown_ids_give_empty_dicts_witness :
  get_agent_performance sample (JStr "missing-id") = Ok (JObj []) /\
  get_agent_dashboard sample (JStr "missing-id") = Ok (JObj []).
Proof.
  apply (proj1 (unknown_ids_give_empty_dicts sample (JStr "missing-id")
                  [agent_a2; agent_a1; agent_a1_again])).
  - reflexivity.
  - intros d [<-|[<-|[<-|[]]]]; reflexivity.
Defined.

(** ** No division by zero in the agent figures *)

Lemma find_first_no_zero_division (cond : value -> result bool)
  (items : list value) :
  (forall x, no_zero_division (cond x)) ->
  no_zero_division (find_first cond items).
Proof.
  intros Hc. induction items as [|x rest IH]; simpl.
  - discriminate.
  - apply bind_no_zero_division; [apply Hc|intros [|] _]; [discriminate|exact IH].
Qed.

Lemma by_id_no_zero_division (items id : value) :
  no_zero_division
    (xs <- py_iter items ;;
     find_first (fun r => i <- py_get r "id" JNull ;; Ok (py_eq i id)) xs).
Proof.
  apply bind_no_zero_division; [auto with nzd|intros xs _].
  apply find_first_no_zero_division. intros x. nzd.
Qed.

Lemma by_agent_no_zero_division (items agent_id : value) :
  no_zero_division
    (xs <- py_iter items ;;
     select (fun r => a <- py_get r "agent_id" JNull ;; Ok (py_eq a agent_id)) xs).
Proof.
  apply bind_no_zero_division; [auto with nzd|intros xs _].
  apply select_no_zero_division. intros x. nzd.
Qed.

Lemma get_each_no_zero_division (field : string) (items : list value) :
  no_zero_division (get_each field items).
Proof.
  induction items as [|x rest IH]; simpl.
  - discriminate.
  - apply bind_no_zero_division; [auto with nzd|intros v _].
    apply bind_no_zero_division; [exact IH|intros vs _]. discriminate.
Qed.

Lemma sum_values_no_zero_division (values : list value) :
  forall acc, no_zero_division (sum_values values acc).
Proof.
  induction values as [|v rest IH]; simpl; intros acc.
  - discriminate.
  - apply bind_no_zero_division; [auto with nzd|intros acc' _]. apply IH.
Qed.

Lemma calculate_avg_no_zero_division (field : string) (records : value) :
  no_zero_division (calculate_avg field records).
Proof.
  unfold calculate_avg. destruct (truthy records); simpl; [|discriminate].
  apply bind_no_zero_division; [auto with nzd|intros xs _].
  apply bind_no_zero_division; [apply get_each_no_zero_division|intros vs _].
  destruct vs as [|v vs]; [discriminate|].
  apply bind_no_zero_division; [apply sum_values_no_zero_division|intros s _].
  apply py_div_no_zero_division. discriminate.
Qed.

Lemma get_agent_performance_no_zero_division
  (self : RealEstateDataManager) (agent_id : value) :
  no_zero_division (get_agent_performance self agent_id).
Proof.
  unfold get_agent_performance.
  apply bind_no_zero_division; [apply by_id_no_zero_division|intros agent _].
  destruct (truthy agent); simpl; [|discriminate].
  apply bind_no_zero_division; [apply by_agent_no_zero_division|intros props _].
  apply bind_no_zero_division; [auto with nzd|intros recent _].
  apply bind_no_zero_division; [auto with nzd|intros name _].
  apply bind_no_zero_division; [auto with nzd|intros n _].
  apply bind_no_zero_division;
    [apply calculate_avg_no_zero_division|intros avg _].
  apply bind_no_zero_division; [auto with nzd|intros sales _].
  apply bind_no_zero_division;
    [apply sum_field_no_zero_division|intros vol _].
  apply bind_no_zero_division; [auto with nzd|intros specs _].
  apply bind_no_zero_division; [auto with nzd|intros ts _].
  apply bind_no_zero_division;
    [apply calculate_avg_no_zero_division|intros rating _].
  discriminate.
Qed.

(** X11.  No call of [get_agent_performance] or [get_agent_dashboard] ends in a
    [ZeroDivisionError], whatever the documents hold; and the two averages
    are 0 for an empty list of records. *)
Theorem agent_figures_never_divide_by_zero :
  (forall self agent_id,
      no_zero_division (get_agent_performance self agent_id)) /\
  (forall self agent_id,
      no_zero_division (get_agent_dashboard self agent_id)) /\
  _calculate_avg_days_on_market (JArr []) = Ok (int 0) /\
  _calculate_avg_rating (JArr []) = Ok (int 0).
Proof.
  split; [|split; [|split]]; try reflexivity.
  - apply get_agent_performance_no_zero_division.
  - intros self agent_id. unfold get_agent_dashboard.
    apply bind_no_zero_division; [apply by_id_no_zero_division|intros agent _].
    destruct (truthy agent); simpl; [|discriminate].
    apply bind_no_zero_division;
      [apply get_agent_performance_no_zero_division|intros perf _].
    repeat (apply bind_no_zero_division;
            [apply by_agent_no_zero_division|intros ? _]).
    discriminate.
Qed.

(** ** Comparing areas *)

Lemma dict_lookup_set (d : dict) (k k' : string) (v : value) :
  dict_lookup k (dict_set d k' v)
  = if String.eqb k k' then Some v else dict_lookup k d.
Proof.
  induction d as [|[k0 w] d IH]; simpl.
  - now destruct (String.eqb k k').
  - destruct (String.eqb_spec k' k0) as [->|Hne]; simpl.
    + now destruct (String.eqb k k0).
    + rewrite IH. destruct (String.eqb_spec k k') as [->|Hne'];
        [|reflexivity].
      destruct (String.eqb_spec k' k0); [contradiction|reflexivity].
Qed.

Lemma compare_loop_lookup (perf : dict) (areas : list string) :
  forall comparison,
  exists result,
    compare_loop (JObj perf) areas comparison = Ok result /\
    forall k,
      dict_lookup k result
      = match (if existsb (String.eqb k) areas then dict_lookup k perf else None) with
        | Some v => Some v
        | None => dict_lookup k comparison
        end.
Proof.
  induction areas as [|a rest IH]; intros comparison.
  - exists comparison. split; [reflexivity|]. intros k. reflexivity.
  - simpl. destruct (dict_lookup a perf) as [v|] eqn:Ha; cbn [bind].
    + destruct (IH (dict_set comparison a (dict_get perf a JNull)))
        as [result [Hr Hk]].
      exists result. split; [exact Hr|]. intros k. rewrite Hk.
      rewrite dict_lookup_set.
      destruct (String.eqb_spec k a) as [->|Hne]; simpl.
      * rewrite Ha. destruct (existsb (String.eqb a) rest);
          [reflexivity|]. unfold dict_get. now rewrite Ha.
      * reflexivity.
    + destruct (IH comparison) as [result [Hr Hk]].
      exists result. split; [exact Hr|]. intros k. rewrite Hk.
      destruct (String.eqb_spec k a) as [->|Hne]; simpl; [|reflexivity].
      rewrite Ha. now destruct (existsb (String.eqb a) rest).
Qed.

(** X12.  When [area_performance] is a mapping, [compare_areas] returns, and its
    result holds, for each requested name that the mapping has, the
    mapping's entry, and nothing else: unknown names are left out and are
    no error.  Each entry is what [get_area_market_data] returns for the
    name. *)
Theorem compare_areas_restricts
  (self : RealEstateDataManager) (perf : dict) (areas : list string) :
  dict_get (market self) "area_performance" (JObj []) = JObj perf ->
  exists comparison,
    compare_areas self areas = Ok comparison /\
    (forall k,
        dict_lookup k comparison
        = if existsb (String.eqb k) areas then dict_lookup k perf else None) /\
    (forall k v,
        dict_lookup k comparison = Some v ->
        get_area_market_data self (JStr k) = Ok v).
Proof.
  intros Hperf. unfold compare_areas, get_area_market_data. rewrite Hperf.
  destruct (compare_loop_lookup perf areas []) as [result [Hr Hk]].
  exists result. split; [exact Hr|].
  assert (Hk' : forall k,
             dict_lookup k result
             = if existsb (String.eqb k) areas then dict_lookup k perf else None).
  { intros k. rewrite Hk. simpl.
    destruct (existsb (String.eqb k) areas); [|reflexivity].
    now destruct (dict_lookup k perf). }
  split; [exact Hk'|].
  intros k v Hv. rewrite Hk' in Hv. simpl. unfold dict_get.
  destruct (existsb (String.eqb k) areas); [|discriminate].
  now rewrite Hv.
Qed.

Lemma compare_areas_restricts_witness :
  exists comparison,
    compare_areas market_manager ["Downtown"; "Nowhere"] = Ok comparison /\
    (forall k,
        dict_lookup k comparison
        = if existsb (String.eqb k) ["Downtown"; "Nowhere"]
          then dict_lookup k [("Downtown", JObj [("median", int 1)]);
                              ("Uptown", JObj [("median", int 2)])]
          else None) /\
    (forall k v,
        dict_lookup k comparison = Some v ->
        get_area_market_data market_manager (JStr k) = Ok v).
Proof.
  apply (compare_areas_restricts market_manager). reflexivity.
Defined.

(** ** The area report *)



(** ** Strings: occurrence, joining, lower case *)

Lemma string_app_assoc (a b c : string) :
  ((a ++ b) ++ c)%string = (a ++ b ++ c)%string.
Proof. induction a as [|x a IH]; simpl; [reflexivity|now rewrite IH]. Qed.

Lemma string_app_nil_r (a : string) : (a ++ "")%string = a.
Proof. induction a as [|x a IH]; simpl; [reflexivity|now rewrite IH]. Qed.





Lemma within_refl (s : string) : within s s.
Proof. exists ""%string, ""%string. simpl. now rewrite string_app_nil_r. Qed.

Lemma within_trans (s t u : string) : within s t -> within t u -> within s u.
Proof.
  intros [a [b ->]] [c [d ->]]. exists (c ++ a)%string, (b ++ d)%string.
  now rewrite !string_app_assoc.
Qed.

Lemma within_join (sep s : string) (parts : list string) :
  In s parts -> within s (join_strs sep parts).
Proof.
  induction parts as [|p rest IH]; [contradiction|].
  intros [->|Hin].
  - destruct rest as [|r rest']; [apply within_refl|].
    exists ""%string, (sep ++ join_strs sep (r :: rest'))%string. reflexivity.
  - destruct rest as [|r rest']; [contradiction|].
    destruct (IH Hin) as [a [b Hab]].
    exists (p ++ sep ++ a)%string, b.
    change (join_strs sep (p :: r :: rest'))
      with (p ++ sep ++ join_strs sep (r :: rest'))%string.
    rewrite Hab. now rewrite !string_app_assoc.
Qed.



Lemma lower_ascii_idem (c : ascii) : lower_ascii (lower_ascii c) = lower_ascii c.
Proof. destruct c as [[] [] [] [] [] [] [] []]; reflexivity. Qed.

Lemma lower_idem (s : string) : lower (lower s) = lower s.
Proof.
  induction s as [|c s IH]; simpl; [reflexivity|].
  now rewrite lower_ascii_idem, IH.
Qed.

Lemma contains_empty (h : string) : contains "" h = true.
Proof. now destruct h. Qed.

Lemma as_strs_strings (l : list value) :
  forallb is_string l = true -> as_strs l = Ok (strs_of l).
Proof.
  induction l as [|v l IH]; simpl; [reflexivity|].
  destruct v; simpl; try discriminate. intros H. now rewrite (IH H).
Qed.

Lemma str_field_get (d : dict) (k : string) :
  field_is is_string d k = true ->
  dict_get d k (JStr "") = JStr (str_field d k).
Proof.
  unfold field_is, str_field, dict_get.
  destruct (dict_lookup k d) as [[]|]; try discriminate; reflexivity.
Qed.

Lemma strs_field_join (d : dict) (k : string) :
  field_is is_string_list d k = true ->
  py_join " " (dict_get d k (JArr [])) = Ok (join_strs " " (strs_field d k)).
Proof.
  unfold field_is, strs_field, dict_get, py_join.
  destruct (dict_lookup k d) as [[| | | |l|]|]; try discriminate.
  - simpl. intros H. now rewrite (as_strs_strings l H).
  - reflexivity.
Qed.

(** ** Text search *)

Lemma property_text_searchable (d : dict) :
  searchable_property (JObj d) = true ->
  exists text,
    property_text (JObj d) = Ok (lower text) /\
    forall s, In s (property_strings d) -> within s text.
Proof.
  unfold searchable_property. intros H. split_andb.
  exists (join_strs " "
            [str_field d "address"; str_field d "description";
             str_field d "area"; join_strs " " (strs_field d "features");
             str_field d "property_type"; str_field d "style"]).
  split.
  - unfold property_text. cbn [py_get bind].
    rewrite !str_field_get by assumption.
    rewrite strs_field_join by assumption. reflexivity.
  - intros s Hs. unfold property_strings in Hs.
    apply in_app_or in Hs. destruct Hs as [Hs|Hs];
      [|apply in_app_or in Hs; destruct Hs as [Hs|Hs]].
    + apply within_join. simpl in *. tauto.
    + apply (within_trans _ (join_strs " " (strs_field d "features"))).
      * now apply within_join.
      * apply within_join. simpl. tauto.
    + apply within_join. simpl in *. tauto.
Qed.

Lemma agent_text_searchable (d : dict) :
  searchable_agent (JObj d) = true ->
  exists text,
    agent_text (JObj d) = Ok (lower text) /\
    forall s, In s (agent_strings d) -> within s text.
Proof.
  unfold searchable_agent. intros H. split_andb.
  exists (join_strs " "
            [str_field d "name";
             join_strs " " (strs_field d "specializations");
             join_strs " " (strs_field d "expertise_areas");
             str_field d "bio"]).
  split.
  - unfold agent_text. cbn [py_get bind].
    rewrite !str_field_get by assumption.
    rewrite !strs_field_join by assumption. reflexivity.
  - intros s Hs. unfold agent_strings in Hs.
    apply in_app_or in Hs. destruct Hs as [Hs|Hs];
      [|apply in_app_or in Hs; destruct Hs as [Hs|Hs];
        [|apply in_app_or in Hs; destruct Hs as [Hs|Hs]]].
    + apply within_join. simpl in *. tauto.
    + apply (within_trans _ (join_strs " " (strs_field d "specializations"))).
      * now apply within_join.
      * apply within_join. simpl. tauto.
    + apply (within_trans _ (join_strs " " (strs_field d "expertise_areas"))).
      * now apply within_join.
      * apply within_join. simpl. tauto.
    + apply within_join. simpl in *. tauto.
Qed.


Lemma searchable_property_record (x : value) :
  searchable_property x = true -> exists d, x = JObj d.
Proof. destruct x; try discriminate. eauto. Qed.

Lemma searchable_agent_record (x : value) :
  searchable_agent x = true -> exists d, x = JObj d.
Proof. destruct x; try discriminate. eauto. Qed.



(** X15.  The empty query selects everything: over listings, and over agents,
    whose text fields are strings, a search for [""] returns the whole
    sequence. *)
Theorem empty_query_returns_all
  (self : RealEstateDataManager) (all : list value) :
  (get_all_properties self = JArr all ->
   forallb searchable_property all = true ->
   search_properties self (JStr "") = Ok all)
  /\
  (get_all_agents self = JArr all ->
   forallb searchable_agent all = true ->
   search_agents self (JStr "") = Ok all).
Proof.
  split; intros Hall Hshape; rewrite forallb_forall in Hshape.
  - unfold search_properties. rewrite Hall. cbn [py_lower py_iter bind lower].
    apply select_all. intros x Hx.
    destruct (searchable_property_record x (Hshape x Hx)) as [d ->].
    destruct (property_text_searchable d (Hshape _ Hx)) as [text [-> _]].
    cbn [bind]. now rewrite contains_empty.
  - unfold search_agents. rewrite Hall. cbn [py_lower py_iter bind lower].
    apply select_all. intros x Hx.
    destruct (searchable_agent_record x (Hshape x Hx)) as [d ->].
    destruct (agent_text_searchable d (Hshape _ Hx)) as [text [-> _]].
    cbn [bind]. now rewrite contains_empty.
Qed.

Lemma empty_query_returns_all_witness :
  search_properties garage_manager (JStr "")
  = Ok (map JObj [listing_p1; listing_garage]).
Proof.
  apply (proj1 (empty_query_returns_all garage_manager
                  (map JObj [listing_p1; listing_garage])));
    reflexivity.
Defined.

(** X16.  Lower-casing the argument changes the outcome of none of the
    case-insensitive queries: the two searches, the two queries by area
    and the lookup of an area by name. *)
Theorem queries_ignore_case_of_argument
  (self : RealEstateDataManager) (arg : string) :
  search_properties self (JStr (lower arg)) = search_properties self (JStr arg) /\
  search_agents self (JStr (lower arg)) = search_agents self (JStr arg) /\
  get_properties_by_area self (JStr (lower arg))
  = get_properties_by_area self (JStr arg) /\
  get_sales_by_area self (JStr (lower arg)) = get_sales_by_area self (JStr arg) /\
  get_area_info self (JStr (lower arg)) = get_area_info self (JStr arg).
Proof.
  unfold search_properties, search_agents, get_properties_by_area,
    get_sales_by_area, get_area_info, in_area.
  cbn [py_lower]. rewrite !lower_idem. repeat split.
Qed.

(** ** Loading *)

Lemma cache_lookup_set (c : cache) (p p' : string) (data : dict) :
  cache_lookup p (cache_set c p' data)
  = if String.eqb p p' then Some data else cache_lookup p c.
Proof.
  induction c as [|[p0 old] c IH]; simpl.
  - now destruct (String.eqb p p').
  - destruct (String.eqb_spec p' p0) as [->|Hne]; simpl.
    + now destruct (String.eqb p p0).
    + rewrite IH. destruct (String.eqb_spec p p') as [->|Hne'];
        [|reflexivity].
      destruct (String.eqb_spec p' p0); [contradiction|reflexivity].
Qed.








Example refresh_drops_stale_cache :
  get_all_properties (documents (refresh_data disk_listings_only stale_loader))
  = JArr (map JObj [listing_p1; listing_p2]).
Proof. reflexivity. Qed.

(** X19.  [_load_json_file] memoizes what it parsed and nothing else.  After a
    file has been parsed, a further load of the same path returns the same
    document without looking at the disk, and prints nothing.  After a
    failed load the cache is as before, a warning has been printed, and a
    further load looks at the disk again. *)
Theorem load_memoizes_parsed_files_only
  (fs : filesystem) (p : string) (c : cache) (warned : list string) :
  cache_lookup p c = None ->
  (forall data,
      fs p = Parsed data ->
      exists c',
        _load_json_file fs p c warned = (data, c', warned) /\
        forall fs' warned', _load_json_file fs' p c' warned' = (data, c', warned'))
  /\
  (unreadable fs p = true ->
   _load_json_file fs p c warned = ([], c, warned ++ [p]) /\
   forall fs' data warned',
     fs' p = Parsed data ->
     exists c', _load_json_file fs' p c warned' = (data, c', warned')).
Proof.
  intros Hmiss. unfold _load_json_file. rewrite Hmiss. split.
  - intros data Hp. rewrite Hp. exists (cache_set c p data).
    split; [reflexivity|]. intros fs' warned'.
    now rewrite cache_lookup_set, String.eqb_refl.
  - unfold unreadable. intros Hp.
    destruct (fs p) as [data| |]; try discriminate;
      (split; [reflexivity|]; intros fs' data warned' Hp';
       rewrite Hp'; eauto).
Qed.

Lemma load_memoizes_parsed_files_only_witness :
  exists c',
    _load_json_file disk_listings_only "data/properties/active_listings.json"
      [] []
    = (listings_document, c', []) /\
    forall fs' warned',
      _load_json_file fs' "data/properties/active_listings.json" c' warned'
      = (listings_document, c', warned').
Proof.
  apply (proj1 (load_memoizes_parsed_files_only disk_listings_only
                  "data/properties/active_listings.json" [] [] eq_refl)).
  reflexivity.
Defined.

(** ** Amenities of an area *)

Lemma shops_in_area_entries (area : value) (items : dict) :
  forall acc result,
    shops_in_area items area acc = Ok result ->
    (forall k v,
        dict_lookup k result = Some v ->
        dict_lookup k acc = Some v \/
        exists shops kept,
          In (k, JArr shops) items /\ v = JArr kept /\
          in_area (JArr shops) area = Ok kept)
    /\
    (forall k,
        (exists v, dict_lookup k acc = Some v) \/
        (exists shops, In (k, JArr shops) items) ->
        exists v, dict_lookup k result = Some v).
Proof.
  induction items as [|[shop_type shops] rest IH]; intros acc result H.
  - simpl in H. injection H as <-. split.
    + intros k v Hk. now left.
    + intros k [Hk|[shops []]]. exact Hk.
  - assert (Hskip : shops_in_area rest area acc = Ok result ->
              (forall l, shops <> JArr l) ->
              (forall k v,
                  dict_lookup k result = Some v ->
                  dict_lookup k acc = Some v \/
                  exists shops0 kept,
                    In (k, JArr shops0) ((shop_type, shops) :: rest) /\
                    v = JArr kept /\ in_area (JArr shops0) area = Ok kept)
              /\
              (forall k,
                  (exists v, dict_lookup k acc = Some v) \/
                  (exists shops0, In (k, JArr shops0) ((shop_type, shops) :: rest)) ->
                  exists v, dict_lookup k result = Some v)).
    { intros Hr Hnl. destruct (IH acc result Hr) as [H1 H2]. split.
      - intros k v Hk. destruct (H1 k v Hk) as [Ha|[s0 [kept [Hin Hv]]]];
          [now left|right]. exists s0, kept. split; [now right|exact Hv].
      - intros k [Hk|[s0 [E|Hin]]].
        + apply H2. now left.
        + injection E as _ E. now destruct (Hnl s0).
        + apply H2. right. now exists s0. }
    destruct shops as [| | | |l|]; simpl in H;
      try (apply Hskip; [exact H|discriminate]).
    clear Hskip.
    destruct (in_area (JArr l) area) as [kept|e] eqn:Hkept; [|discriminate].
    cbn [bind] in H.
    destruct (IH _ result H) as [H1 H2]. split.
    + intros k v Hk. destruct (H1 k v Hk) as [Ha|[s0 [kept0 [Hin Hv]]]].
      * rewrite dict_lookup_set in Ha.
        destruct (String.eqb_spec k shop_type) as [->|Hne]; [|now left].
        injection Ha as <-. right. exists l, kept.
        split; [now left|now split].
      * right. exists s0, kept0. split; [now right|exact Hv].
    + intros k Hk. apply H2. rewrite dict_lookup_set.
      destruct (String.eqb_spec k shop_type) as [->|Hne]; [left; eauto|].
      destruct Hk as [Hk|[s0 [E|Hin]]].
      * now left.
      * injection E as E _. now destruct Hne.
      * right. now exists s0.
Qed.

(** X20.  A result of [get_area_amenities] has the three entries [schools],
    [parks] and [shopping], in that order.  The schools are those of
    [get_schools_by_area]; the shopping entry has a key for every
    sub-type of the document whose value is a list, and for no other:
    each of its values is the selection by area of the shops of a
    sub-type of that name. *)
Theorem area_amenities_shape
  (self : RealEstateDataManager) (area result : value) (shopping : dict) :
  dict_get (amenities self) "shopping" (JObj []) = JObj shopping ->
  get_area_amenities self area = Ok result ->
  exists schools area_parks area_shopping,
    result = JObj [("schools", JArr schools);
                   ("parks", JArr area_parks);
                   ("shopping", JObj area_shopping)] /\
    get_schools_by_area self area = Ok schools /\
    (forall k v,
        dict_lookup k area_shopping = Some v ->
        exists shops kept,
          In (k, JArr shops) shopping /\ v = JArr kept /\
          in_area (JArr shops) area = Ok kept) /\
    (forall k shops,
        In (k, JArr shops) shopping ->
        exists v, dict_lookup k area_shopping = Some v).
Proof.
  intros Hshop. unfold get_area_amenities. rewrite Hshop.
  destruct (get_schools_by_area self area) as [schools|e]; [|discriminate].
  cbn [bind].
  destruct (py_get _ "parks" (JArr [])) as [parks|e]; [|discriminate].
  cbn [bind].
  destruct (in_area parks area) as [area_parks|e]; [|discriminate].
  cbn [bind].
  destruct (shops_in_area shopping area []) as [area_shopping|e] eqn:Hs;
    [|discriminate].
  cbn [bind]. intros H. injection H as <-.
  exists schools, area_parks, area_shopping.
  destruct (shops_in_area_entries area shopping [] area_shopping Hs) as [H1 H2].
  split; [reflexivity|]. split; [reflexivity|]. split.
  - intros k v Hk. destruct (H1 k v Hk) as [Ha|Hex]; [discriminate|exact Hex].
  - intros k shops Hin. apply H2. right. now exists shops.
Qed.

Lemma area_amenities_shape_witness :
  exists schools area_parks area_shopping,
    (JObj [("schools", JArr []); ("parks", JArr []);
           ("shopping",
            JObj [("malls", JArr [shop "Galleria" "Downtown"]);
                  ("markets", JArr [])])])
    = JObj [("schools", JArr schools);
            ("parks", JArr area_parks);
            ("shopping", JObj area_shopping)] /\
    get_schools_by_area shopping_manager (JStr "downtown") = Ok schools /\
    (forall k v,
        dict_lookup k area_shopping = Some v ->
        exists shops kept,
          In (k, JArr shops)
            [("malls", JArr [shop "Galleria" "Downtown"; shop "Plaza" "Uptown"]);
             ("note", JStr "updated monthly");
             ("markets", JArr [shop "Farmers" "Uptown"])] /\
          v = JArr kept /\
          in_area (JArr shops) (JStr "downtown") = Ok kept) /\
    (forall k shops,
        In (k, JArr shops)
          [("malls", JArr [shop "Galleria" "Downtown"; shop "Plaza" "Uptown"]);
           ("note", JStr "updated monthly");
           ("markets", JArr [shop "Farmers" "Uptown"])] ->
        exists v, dict_lookup k area_shopping = Some v).
Proof.
  apply (area_amenities_shape shopping_manager (JStr "downtown")); reflexivity.
Defined.

(** ** Raising a lower bound *)

Lemma matches_filter_true_iff (prop : value) (filters : PropertyFilter.t) :
  _matches_filter prop filters = Ok true <->
  below prop "price" (PropertyFilter.min_price filters) = Ok false /\
  above prop "price" (PropertyFilter.max_price filters) = Ok false /\
  below prop "bedrooms" (PropertyFilter.min_bedrooms filters) = Ok false /\
  above prop "bedrooms" (PropertyFilter.max_bedrooms filters) = Ok false /\
  below prop "bathrooms" (PropertyFilter.min_bathrooms filters) = Ok false /\
  above prop "bathrooms" (PropertyFilter.max_bathrooms filters) = Ok false /\
  outside prop "area" (PropertyFilter.areas filters) = Ok false /\
  outside prop "property_type" (PropertyFilter.property_types filters)
  = Ok false /\
  below prop "square_feet" (PropertyFilter.min_sqft filters) = Ok false /\
  above prop "square_feet" (PropertyFilter.max_sqft filters) = Ok false /\
  features_check prop filters = Ok true.
Proof.
  change (_matches_filter prop filters)
    with (return_false_if (below prop "price" (PropertyFilter.min_price filters)) (
          return_false_if (above prop "price" (PropertyFilter.max_price filters)) (
          return_false_if (below prop "bedrooms" (PropertyFilter.min_bedrooms filters)) (
          return_false_if (above prop "bedrooms" (PropertyFilter.max_bedrooms filters)) (
          return_false_if (below prop "bathrooms" (PropertyFilter.min_bathrooms filters)) (
          return_false_if (above prop "bathrooms" (PropertyFilter.max_bathrooms filters)) (
          return_false_if (outside prop "area" (PropertyFilter.areas filters)) (
          return_false_if
            (outside prop "property_type" (PropertyFilter.property_types filters)) (
          return_false_if (below prop "square_feet" (PropertyFilter.min_sqft filters)) (
          return_false_if (above prop "square_feet" (PropertyFilter.max_sqft filters)) (
          features_check prop filters))))))))))).
  split.
  - intros H.
    repeat (apply return_false_if_true in H;
            let C := fresh "C" in destruct H as [C H]).
    repeat split; assumption.
  - intros (C1 & C2 & C3 & C4 & C5 & C6 & C7 & C8 & C9 & C10 & C11).
    now rewrite C1, C2, C3, C4, C5, C6, C7, C8, C9, C10, C11.
Qed.

Lemma py_lt_as_num (v : value) (n m : number) :
  as_num v = Some n -> py_lt v (JNum m) = Ok (num_lt n m).
Proof. destruct v; simpl; try discriminate; intros H; now injection H as <-. Qed.

Lemma num_lt_weaken (n : number) (q1 q2 : Q) :
  q1 <= q2 -> num_lt n (Fin q2) = false -> num_lt n (Fin q1) = false.
Proof.
  intros Hq. destruct n as [y| | |]; simpl; try (intros; reflexivity || assumption).
  intros H. apply negb_false_iff in H. apply Qle_bool_iff in H.
  apply negb_false_iff. apply Qle_bool_iff.
  now apply (Qle_trans q1 q2 y).
Qed.

Lemma below_weaken (prop : value) (field : string) (v : value) (q : Q) :
  ~ q == 0 -> no_stricter v q ->
  below prop field (JNum (Fin q)) = Ok false ->
  below prop field v = Ok false.
Proof.
  intros Hq Hv H.
  destruct (below_passed prop field q Hq H) as [d [-> [n [Hn Hlt]]]].
  destruct Hv as [Hv|[q' [-> Hle]]]; unfold below.
  - now rewrite Hv.
  - destruct (truthy (JNum (Fin q'))); [|reflexivity].
    cbn [py_get bind]. rewrite (py_lt_as_num _ n _ Hn).
    now rewrite (num_lt_weaken n q' q Hle Hlt).
Qed.

(** X7.  Raising a lower bound never adds results.  For each of [min_price],
    [min_bedrooms], [min_bathrooms], [min_sqft]: the listings selected
    under a finite bound [q] other than 0 are a subsequence of those
    selected with that field unset, 0, or a finite bound at most [q], the
    rest of the filter being the same. *)
Theorem raising_a_lower_bound_narrows
  (self : RealEstateDataManager) (filters : PropertyFilter.t)
  (v : value) (q : Q) (narrow wide : list value) :
  ~ q == 0 ->
  no_stricter v q ->
  (filter_properties self (with_min_price filters (JNum (Fin q))) = Ok narrow ->
   filter_properties self (with_min_price filters v) = Ok wide ->
   Subseq narrow wide) /\
  (filter_properties self (with_min_bedrooms filters (JNum (Fin q))) = Ok narrow ->
   filter_properties self (with_min_bedrooms filters v) = Ok wide ->
   Subseq narrow wide) /\
  (filter_properties self (with_min_bathrooms filters (JNum (Fin q))) = Ok narrow ->
   filter_properties self (with_min_bathrooms filters v) = Ok wide ->
   Subseq narrow wide) /\
  (filter_properties self (with_min_sqft filters (JNum (Fin q))) = Ok narrow ->
   filter_properties self (with_min_sqft filters v) = Ok wide ->
   Subseq narrow wide).
Proof.
  intros Hq Hv. unfold filter_properties.
  destruct (py_iter (get_all_properties self)) as [props|e];
    [|repeat split; discriminate].
  cbn [bind].
  repeat split; intros Hn Hw; apply (select_mono _ _ _ _ _ Hn Hw);
    intros x _ Hacc;
    apply matches_filter_true_iff in Hacc; apply matches_filter_true_iff;
    cbn in Hacc |- *;
    destruct Hacc as (C1 & C2 & C3 & C4 & C5 & C6 & C7 & C8 & C9 & C10 & C11);
    repeat split; try assumption;
    now apply (below_weaken x _ v q Hq Hv).
Qed.

Lemma raising_a_lower_bound_narrows_witness :
  Subseq [JObj listing_p2] [JObj listing_p1; JObj listing_p2].
Proof.
  assert (Hq : ~ inject_Z 600000 == 0) by discriminate.
  assert (Hv : no_stricter (int 400000) (inject_Z 600000)).
  { right. exists (inject_Z 400000). split; [reflexivity|discriminate]. }
  apply (proj1 (raising_a_lower_bound_narrows sample PropertyFilter.default
                  (int 400000) (inject_Z 600000)
                  [JObj listing_p2] [JObj listing_p1; JObj listing_p2] Hq Hv));
    reflexivity.
Defined.

